(** * lustreapi: striping and HSM metadata bindings

    A shallow embedding of [lustreapi.py]: the HSM flag codec, the stripe
    object and the wrappers around the foreign functions of liblustreapi,
    with the properties of the specification proved about them.

    Python integers are [Z]; a Python [str] or [bytes] object is a [string]
    (its UTF-8 bytes); raised exceptions are values of [exn]. *)

From Stdlib Require Import ZArith List String Ascii Bool Lia Permutation.
From Stdlib Require Import DecimalString.
From Stdlib Require HexadecimalString HexadecimalZ HexadecimalPos.
From Stdlib.Strings Require Byte.
Import ListNotations.

Local Open Scope string_scope.
Local Open Scope list_scope.
Local Open Scope Z_scope.

(** ** Exceptions and results

    Two outcomes are not Python exceptions.  [FuelExhausted] marks a loop
    of the embedding that was cut short; [readData_loop_fuel] shows that
    [readData] never produces it.  [Blocked] marks a call that does not
    return: native code waiting in [write(2)] on a full pipe that nobody
    reads.  Both pass through [bind] like an exception, since nothing that
    follows them runs and the module has no [try] statement. *)

Inductive exn : Type :=
| IOError (errno : Z) (strerror : string)
| OSError (errno : Z)
| ValueError
| IndexError
| TypeError
| ArgumentError
| FuelExhausted
| Blocked.

Inductive result (A : Type) : Type :=
| Ok (a : A)
| Raise (e : exn).

Arguments Ok {A} a.
Arguments Raise {A} e.

Definition rbind {A B : Type} (r : result A) (k : A -> result B) : result B :=
  match r with
  | Ok a => k a
  | Raise e => Raise e
  end.

Notation "x <-- r ;; k" := (rbind r (fun x => k))
  (at level 61, r at next level, right associativity).

(** ** [int(s, 16)]

    The literal forms the module uses: an optional [0x]/[0X] prefix
    followed by at least one hexadecimal digit.  Anything else raises
    [ValueError]. *)

Definition hex_digit (c : ascii) : option Z :=
  let n := Z.of_nat (nat_of_ascii c) in
  if (48 <=? n) && (n <=? 57) then Some (n - 48)
  else if (97 <=? n) && (n <=? 102) then Some (n - 87)
  else if (65 <=? n) && (n <=? 70) then Some (n - 55)
  else None.

Fixpoint hex_digits (acc : Z) (s : string) : option Z :=
  match s with
  | EmptyString => Some acc
  | String c rest =>
      match hex_digit c with
      | Some d => hex_digits (16 * acc + d) rest
      | None => None
      end
  end.

Definition strip_0x (s : string) : string :=
  match s with
  | String "0"%char (String "x"%char rest) => rest
  | String "0"%char (String "X"%char rest) => rest
  | _ => s
  end.

Definition int16 (s : string) : result Z :=
  match strip_0x s with
  | EmptyString => Raise ValueError
  | body =>
      match hex_digits 0 body with
      | Some z => Ok z
      | None => Raise ValueError
      end
  end.

(** ** Module constants *)

Definition LUSTREMAGIC : Z := 0xbd00bd0.

Definition HSM_FLAGS : list (string * string) :=
  [ ("NONE", "0x00000000");
    ("EXISTS", "0x00000001");
    ("DIRTY", "0x00000002");
    ("RELEASED", "0x00000004");
    ("ARCHIVED", "0x00000008");
    ("NORELEASE", "0x00000010");
    ("NOARCHIVE", "0x00000020");
    ("LOST", "0x00000040") ].

(** ** ctypes structures *)

Record lov_user_ost_data_v1 : Type := {
  l_object_id : Z;
  l_object_gr : Z;
  l_ost_gen : Z;
  l_ost_idx : Z
}.

Record lov_user_md_v1 : Type := {
  lmm_magic : Z;
  lmm_pattern : Z;
  lmm_object_id : Z;
  lmm_object_gr : Z;
  lmm_stripe_size : Z;
  lmm_stripe_count : Z;
  lmm_stripe_offset : Z;
  lmm_objects : list lov_user_ost_data_v1
}.

Record hsm_user_state : Type := {
  hus_states : Z;
  hus_archive_id : Z
}.

Record lu_fid : Type := {
  f_seq : Z;
  f_oid : Z;
  f_ver : Z
}.

(** A structure created without arguments is zero-filled. *)

Definition lov_user_ost_data_v1_new : lov_user_ost_data_v1 :=
  {| l_object_id := 0; l_object_gr := 0; l_ost_gen := 0; l_ost_idx := 0 |}.

Definition LMM_OBJECTS_LEN : nat := 2000.

Definition lov_user_md_v1_new : lov_user_md_v1 :=
  {| lmm_magic := 0; lmm_pattern := 0; lmm_object_id := 0;
     lmm_object_gr := 0; lmm_stripe_size := 0; lmm_stripe_count := 0;
     lmm_stripe_offset := 0;
     lmm_objects := repeat lov_user_ost_data_v1_new LMM_OBJECTS_LEN |}.

(** ** Fid *)

Record Fid : Type := {
  seq : Z;
  oid : Z;
  ver : Z
}.

Definition Fid_init (s o v : Z) : Fid := {| seq := s; oid := o; ver := v |}.

(** ** HSM_state *)

Record HSM_state : Type := {
  archive_id : Z;
  states : list string
}.

(** The loop of [HSM_state.__init__] over the flag table: a flag name is
    appended when [state & int(flag[1], 16)] is non-zero. *)

Fixpoint HSM_state_loop (state : Z) (table : list (string * string))
    (acc : list string) : result (list string) :=
  match table with
  | [] => Ok acc
  | flag :: rest =>
      v <-- int16 (snd flag) ;;
      if Z.land state v =? 0
      then HSM_state_loop state rest acc
      else HSM_state_loop state rest (acc ++ [fst flag])
  end.

Definition HSM_state_init (hus : hsm_user_state) : result HSM_state :=
  sts <-- HSM_state_loop (hus_states hus) HSM_FLAGS [] ;;
  Ok {| archive_id := hus_archive_id hus; states := sts |}.

(** [%i] of a Python integer. *)

Definition fmt_i (z : Z) : string := NilZero.string_of_int (Z.to_int z).

Definition newline : string := String (ascii_of_nat 10) EmptyString.

Definition HSM_state_str (self : HSM_state) : string :=
  if (1 <? List.length (states self))%nat then
    let string := ("Archive id:" ++ fmt_i (archive_id self))%string in
    let string := (string ++ (newline ++ "States: "))%string in
    let states := String.concat " " (states self) in
    (string ++ states)%string
  else "No HSM state".

(** ** hsm_state_from_flags *)

(** Inner loop: one pass over [flags] for a given table entry. *)

Fixpoint hsm_state_from_flags_inner (flag_def : string * string)
    (flags : list string) (state : Z) : result Z :=
  match flags with
  | [] => Ok state
  | flag :: rest =>
      if String.eqb (fst flag_def) flag
      then v <-- int16 (snd flag_def) ;;
           hsm_state_from_flags_inner flag_def rest (state + v)
      else hsm_state_from_flags_inner flag_def rest state
  end.

(** Outer loop over the flag table. *)

Fixpoint hsm_state_from_flags_outer (table : list (string * string))
    (flags : list string) (state : Z) : result Z :=
  match table with
  | [] => Ok state
  | flag_def :: rest =>
      state' <-- hsm_state_from_flags_inner flag_def flags state ;;
      hsm_state_from_flags_outer rest flags state'
  end.

Definition hsm_state_from_flags (flags : list string) : result Z :=
  hsm_state_from_flags_outer HSM_FLAGS flags 0.

(** The names of the flag table, and how often a name occurs in an input. *)

Definition flag_names : list string := map fst HSM_FLAGS.

Definition occ (name : string) (flags : list string) : Z :=
  Z.of_nat (count_occ string_dec flags name).

Definition known_flag (flag : string) : bool :=
  existsb (String.eqb flag) flag_names.

(** ** stripeObj *)

Record stripeObj : Type := {
  lovdata : lov_user_md_v1;
  stripecount : Z;
  stripesize : Z;
  stripeoffset : Z;
  ostobjects : list lov_user_ost_data_v1
}.

Definition stripeObj_init : stripeObj :=
  {| lovdata := lov_user_md_v1_new;
     stripecount := -1;
     stripesize := 0;
     stripeoffset := -1;
     ostobjects := [] |}.

Definition isstriped (self : stripeObj) : bool :=
  if (stripecount self >? 1) || (stripecount self =? -1)
  then true
  else false.

(** Indexing a ctypes array: an index past the end raises [IndexError]. *)

Definition array_get {A : Type} (arr : list A) (i : nat) : result A :=
  match nth_error arr i with
  | Some a => Ok a
  | None => Raise IndexError
  end.

(** [range(0, n)]: empty when [n <= 0]. *)

Definition range0 (n : Z) : list nat := List.seq 0 (Z.to_nat n).

(** The copy loop of [getstripe]:
    [for i in range(0, count): ostobjects.append(lmm_objects[i])]. *)

Fixpoint getstripe_copy (idxs : list nat) (objects acc : list lov_user_ost_data_v1)
    : result (list lov_user_ost_data_v1) :=
  match idxs with
  | [] => Ok acc
  | i :: rest =>
      o <-- array_get objects i ;;
      getstripe_copy rest objects (acc ++ [o])
  end.

(** ** Python values handed to foreign functions, and ctypes conversion *)

Inductive pyval : Type :=
| PyInt (z : Z)
| PyStr (s : string)
| PyBytes (s : string)
| PyNone.

(** [a + b] on these objects: two integers, two [str] or two [bytes]
    objects add; any other pair, a [str] and a [bytes] object among them,
    raises [TypeError]. *)

Definition py_add (a b : pyval) : result pyval :=
  match a, b with
  | PyInt x, PyInt y => Ok (PyInt (x + y))
  | PyStr x, PyStr y => Ok (PyStr (x ++ y))
  | PyBytes x, PyBytes y => Ok (PyBytes (x ++ y))
  | _, _ => Raise TypeError
  end.

Inductive ctype : Type := c_char_p | c_int | c_uint | c_ulong.

Inductive cval : Type :=
| CInt (z : Z)
| CPtr (s : option string).

(** [from_param] of the simple ctypes types: integer types take Python
    integers (reduced to the width of the C type), [c_char_p] takes bytes
    or [None]; any other object is refused. *)

Definition from_param (t : ctype) (v : pyval) : option cval :=
  match t, v with
  | c_int, PyInt z => Some (CInt ((z + 2 ^ 31) mod 2 ^ 32 - 2 ^ 31))
  | c_uint, PyInt z => Some (CInt (z mod 2 ^ 32))
  | c_ulong, PyInt z => Some (CInt (z mod 2 ^ 64))
  | c_char_p, PyBytes s => Some (CPtr (Some s))
  | c_char_p, PyNone => Some (CPtr None)
  | _, _ => None
  end.

Fixpoint marshal (argtypes : list ctype) (args : list pyval) : option (list cval) :=
  match argtypes, args with
  | [], [] => Some []
  | t :: ts, v :: vs =>
      match from_param t v, marshal ts vs with
      | Some c, Some cs => Some (c :: cs)
      | _, _ => None
      end
  | _, _ => None
  end.

Definition llapi_file_open_argtypes : list ctype :=
  [c_char_p; c_int; c_int; c_ulong; c_int; c_int; c_int].

Definition llapi_hsm_state_set_argtypes : list ctype :=
  [c_char_p; c_uint; c_uint; c_uint].

(** What a call of a foreign function object does: ctypes refuses the
    arguments ([ArgumentError]), or the native function runs and returns
    its integer code together with what it wrote through its out
    parameter (for [llapi_file_open]: the text it wrote to descriptor 2). *)

Inductive ffi_outcome (T : Type) : Type :=
| Returned (raw : Z) (out : T)
| Refused.

Arguments Returned {T} raw out.
Arguments Refused {T}.

(** A foreign function bound with [argtypes]: the native code only runs on
    arguments that convert. *)

Definition ctypes_bind {T : Type} (argtypes : list ctype)
    (native : list cval -> ffi_outcome T) (args : list pyval) : ffi_outcome T :=
  match marshal argtypes args with
  | Some cargs => native cargs
  | None => Refused
  end.

(** ** The process: descriptor table, pipes and the system calls used *)

Inductive ofd : Type :=
| Stream (id : nat)
| PipeR (p : nat)
| PipeW (p : nat)
| LustreFile (path : pyval).

Inductive syscall : Type :=
| Sys_pipe (r w : nat)
| Sys_dup (fd newfd : nat)
| Sys_dup2 (fd fd2 : nat)
| Sys_close (fd : nat)
| Sys_select (fd : nat)
| Sys_read (fd : nat) (n : nat).

Record os_state : Type := {
  fds : list (option ofd);
  pipes : list (list Byte.byte);
  written : list (ofd * list Byte.byte);
  stdout : list string;
  syscalls : list syscall
}.

Definition EBADF : Z := 9.

(** The descriptor table is the kernel's array of open file descriptions,
    indexed by descriptor. *)

Definition fd_lookup (tbl : list (option ofd)) (fd : nat) : option ofd :=
  match nth_error tbl fd with
  | Some (Some o) => Some o
  | _ => None
  end.

Fixpoint fd_set (tbl : list (option ofd)) (fd : nat) (v : option ofd)
    : list (option ofd) :=
  match fd, tbl with
  | O, [] => [v]
  | O, _ :: t => v :: t
  | S n, [] => None :: fd_set [] n v
  | S n, x :: t => x :: fd_set t n v
  end.

Fixpoint lowest_unused (tbl : list (option ofd)) : nat :=
  match tbl with
  | [] => O
  | None :: _ => O
  | Some _ :: t => S (lowest_unused t)
  end.

Fixpoint list_set {A : Type} (l : list A) (i : nat) (a : A) : list A :=
  match l, i with
  | [], _ => []
  | _ :: t, O => a :: t
  | x :: t, S n => x :: list_set t n a
  end.

(** State and exception monad of the process. *)

Definition M (A : Type) : Type := os_state -> result A * os_state.

Definition ret {A : Type} (a : A) : M A := fun st => (Ok a, st).

Definition raise {A : Type} (e : exn) : M A := fun st => (Raise e, st).

Definition bind {A B : Type} (m : M A) (k : A -> M B) : M B :=
  fun st =>
    match m st with
    | (Ok a, st') => k a st'
    | (Raise e, st') => (Raise e, st')
    end.

Definition lift {A : Type} (r : result A) : M A := fun st => (r, st).

Notation "x <- m ; k" := (bind m (fun x => k))
  (at level 61, m at next level, right associativity).
Notation "m ;; k" := (bind m (fun _ => k))
  (at level 61, right associativity).

Definition log_syscall (e : syscall) (st : os_state) : os_state :=
  {| fds := fds st; pipes := pipes st; written := written st;
     stdout := stdout st; syscalls := syscalls st ++ [e] |}.

Definition with_fds (tbl : list (option ofd)) (st : os_state) : os_state :=
  {| fds := tbl; pipes := pipes st; written := written st;
     stdout := stdout st; syscalls := syscalls st |}.

Definition with_pipes (ps : list (list Byte.byte)) (st : os_state) : os_state :=
  {| fds := fds st; pipes := ps; written := written st;
     stdout := stdout st; syscalls := syscalls st |}.

(** [os.pipe()]: a new pipe on the two lowest unused descriptors. *)

Definition os_pipe : M (nat * nat) :=
  fun st =>
    let p := List.length (pipes st) in
    let r := lowest_unused (fds st) in
    let tbl := fd_set (fds st) r (Some (PipeR p)) in
    let w := lowest_unused tbl in
    let tbl := fd_set tbl w (Some (PipeW p)) in
    (Ok (r, w),
     log_syscall (Sys_pipe r w) (with_pipes (pipes st ++ [[]]) (with_fds tbl st))).

(** [os.dup(fd)] *)

Definition os_dup (fd : nat) : M nat :=
  fun st =>
    match fd_lookup (fds st) fd with
    | None => (Raise (OSError EBADF), st)
    | Some o =>
        let newfd := lowest_unused (fds st) in
        (Ok newfd,
         log_syscall (Sys_dup fd newfd) (with_fds (fd_set (fds st) newfd (Some o)) st))
    end.

(** [os.dup2(fd, fd2)]: [fd2] is silently closed first when open. *)

Definition os_dup2 (fd fd2 : nat) : M unit :=
  fun st =>
    match fd_lookup (fds st) fd with
    | None => (Raise (OSError EBADF), st)
    | Some o =>
        (Ok tt,
         log_syscall (Sys_dup2 fd fd2) (with_fds (fd_set (fds st) fd2 (Some o)) st))
    end.

(** [os.close(fd)] *)

Definition os_close (fd : nat) : M unit :=
  fun st =>
    match fd_lookup (fds st) fd with
    | None => (Raise (OSError EBADF), st)
    | Some _ =>
        (Ok tt, log_syscall (Sys_close fd) (with_fds (fd_set (fds st) fd None) st))
    end.

(** [select.select([fd], [], [], 0)]: the read end of a pipe is ready when
    bytes are pending. *)

Definition select_read (fd : nat) : M bool :=
  fun st =>
    match fd_lookup (fds st) fd with
    | None => (Raise (OSError EBADF), st)
    | Some (PipeR p) =>
        (Ok (negb (Nat.eqb (List.length (nth p (pipes st) [])) 0)),
         log_syscall (Sys_select fd) st)
    | Some _ => (Ok true, log_syscall (Sys_select fd) st)
    end.

(** [os.read(fd, n)] on the read end of a pipe takes up to [n] pending
    bytes. *)

Definition os_read (fd : nat) (n : nat) : M (list Byte.byte) :=
  fun st =>
    match fd_lookup (fds st) fd with
    | None => (Raise (OSError EBADF), st)
    | Some (PipeR p) =>
        let buf := nth p (pipes st) [] in
        (Ok (firstn n buf),
         log_syscall (Sys_read fd n) (with_pipes (list_set (pipes st) p (skipn n buf)) st))
    | Some _ => (Ok [], log_syscall (Sys_read fd n) st)
    end.

(** A pipe holds 65536 bytes: 16 pages of 4096, the default of Linux. *)

Definition PIPE_CAPACITY : nat := (16 * 4096)%nat.

(** Native code writing [data] to descriptor [fd].  On the write end of a
    pipe the data joins what is pending while it fits; once the pipe is
    full the writer waits for a reader, and the only reader of the capture
    pipe is [readData], which runs after the native call has returned: the
    call never returns.  How much of [data] has entered the pipe by then
    depends on how the library splits its writes; the model keeps the
    prefix that fits. *)

Definition native_write (fd : nat) (data : list Byte.byte) : M unit :=
  fun st =>
    match fd_lookup (fds st) fd with
    | None => (Ok tt, st)
    | Some (PipeW p) =>
        let buf := nth p (pipes st) [] ++ data in
        if (List.length buf <=? PIPE_CAPACITY)%nat
        then (Ok tt, with_pipes (list_set (pipes st) p buf) st)
        else (Raise Blocked,
              with_pipes (list_set (pipes st) p (firstn PIPE_CAPACITY buf)) st)
    | Some o =>
        (Ok tt,
         {| fds := fds st; pipes := pipes st;
            written := written st ++ [(o, data)];
            stdout := stdout st; syscalls := syscalls st |})
    end.

(** [print(...)] *)

Definition print (items : list string) : M unit :=
  fun st =>
    (Ok tt,
     {| fds := fds st; pipes := pipes st; written := written st;
        stdout := stdout st ++ [(String.concat " " items ++ newline)%string];
        syscalls := syscalls st |}).

(** ** captureStderr

    [contents] is a Python object: [__init__] sets it to the [str] [""],
    and [readData] adds to it what [os.read] returns, a [bytes] object. *)

Record captureStderr : Type := {
  pipeout : nat;
  pipein : nat;
  oldstderr : nat;
  contents : pyval
}.

Definition captureStderr_init : M captureStderr :=
  pp <- os_pipe ;
  oldstderr <- os_dup 2 ;
  os_dup2 (snd pp) 2 ;;
  ret {| pipeout := fst pp; pipein := snd pp; oldstderr := oldstderr;
         contents := PyStr "" |}.

Definition checkData (self : captureStderr) : M bool :=
  select_read (pipeout self).

Definition pending (fd : nat) (st : os_state) : nat :=
  match fd_lookup (fds st) fd with
  | Some (PipeR p) => List.length (nth p (pipes st) [])
  | _ => O
  end.

(** [while self.checkData(): self.contents += os.read(self.pipeout, 1024)].
    The read comes before the addition, so the bytes it took are off the
    pipe when the addition raises.  Every round takes at least one pending
    byte, so the number of pending bytes bounds the number of rounds. *)

Fixpoint readData_loop (fuel : nat) (self : captureStderr) : M captureStderr :=
  match fuel with
  | O => raise FuelExhausted
  | S fuel' =>
      ready <- checkData self ;
      if ready : bool then
        data <- os_read (pipeout self) 1024 ;
        sum <- lift (py_add (contents self)
                       (PyBytes (string_of_list_byte data))) ;
        readData_loop fuel'
          {| pipeout := pipeout self; pipein := pipein self;
             oldstderr := oldstderr self; contents := sum |}
      else ret self
  end.

Definition readData (self : captureStderr) : M captureStderr :=
  fun st => readData_loop (S (pending (pipeout self) st)) self st.

Definition stopCapture (self : captureStderr) : M unit :=
  os_dup2 (oldstderr self) 2 ;;
  os_close (pipeout self) ;;
  os_close (pipein self).

(** ** Specification-level notions

    The flag table with its values parsed, and the properties the
    statements below are phrased with. *)

Definition flag_values : list (string * Z) :=
  [ ("NONE", 0); ("EXISTS", 1); ("DIRTY", 2); ("RELEASED", 4);
    ("ARCHIVED", 8); ("NORELEASE", 16); ("NOARCHIVE", 32); ("LOST", 64) ].

Definition parses (flag_def : string * string) (nv : string * Z) : Prop :=
  fst flag_def = fst nv /\ int16 (snd flag_def) = Ok (snd nv).

Fixpoint weighted_occ (vals : list (string * Z)) (flags : list string) : Z :=
  match vals with
  | [] => 0
  | (n, v) :: rest => v * occ n flags + weighted_occ rest flags
  end.

Fixpoint flags_of_mask (state : Z) (vals : list (string * Z)) : list string :=
  match vals with
  | [] => []
  | (n, v) :: rest =>
      if Z.land state v =? 0
      then flags_of_mask state rest
      else n :: flags_of_mask state rest
  end.

Definition pick (b : Z) (name : string) : list string :=
  if 0 <? b then [name] else [].

Definition roundtrips_mask (r : Z) : bool :=
  match hsm_state_from_flags (flags_of_mask r flag_values) with
  | Ok m => m =? r
  | Raise _ => false
  end.

(** The property C3 asks for: repeating a name in the input does not change
    the mask. *)

Definition sums_each_flag_once (flags : list string) : Prop :=
  hsm_state_from_flags flags = hsm_state_from_flags (nodup string_dec flags).

(** The two round trips of C1, for a set of names [F] and for a mask [M]
    ([a] is the archive id carried along with the mask). *)

Definition decode_encode_roundtrips (F : list string) (a : Z) : Prop :=
  exists m st,
    hsm_state_from_flags F = Ok m
    /\ HSM_state_init {| hus_states := m; hus_archive_id := a |} = Ok st
    /\ (forall x, In x (states st) <-> In x F).

Definition encode_decode_roundtrips (M a : Z) : Prop :=
  exists st,
    HSM_state_init {| hus_states := M; hus_archive_id := a |} = Ok st
    /\ hsm_state_from_flags (states st) = Ok M.

(** ** The host: platform functions and liblustreapi

    [os.strerror], [os.O_CREAT] and the foreign functions of liblustreapi
    are taken as given.  A foreign function receives the Python arguments
    of the call (and, for a [byref] out parameter, the structure passed in)
    and answers with an [ffi_outcome]. *)

Record host : Type := {
  strerror : Z -> string;
  O_CREAT : Z;
  llapi_file_get_stripe :
    list pyval -> lov_user_md_v1 -> ffi_outcome lov_user_md_v1;
  llapi_file_open : list pyval -> ffi_outcome (list Byte.byte);
  llapi_path2fid : list pyval -> lu_fid -> ffi_outcome lu_fid;
  llapi_hsm_state_get :
    list pyval -> hsm_user_state -> ffi_outcome hsm_user_state;
  llapi_hsm_state_set : list pyval -> ffi_outcome unit
}.

(** ** The wrappers *)

Definition getstripe (h : host) (filename : pyval) : result stripeObj :=
  let stripeobj := stripeObj_init in
  match llapi_file_get_stripe h [filename] lov_user_md_v1_new with
  | Refused => Raise ArgumentError
  | Returned err lovdata =>
      if (err <? 0) && negb (err =? -61) then
        let err := 0 - err in
        Raise (IOError err (strerror h err))
      else if err =? -61 then
        Ok {| lovdata := lovdata;
              stripecount := 0;
              stripesize := 0;
              stripeoffset := -1;
              ostobjects := ostobjects stripeobj |}
      else
        objs <-- getstripe_copy (range0 (lmm_stripe_count lovdata))
                   (lmm_objects lovdata) (ostobjects stripeobj) ;;
        Ok {| lovdata := lovdata;
              stripecount := lmm_stripe_count lovdata;
              stripesize := lmm_stripe_size lovdata;
              stripeoffset :=
                if (0 <? List.length objs)%nat
                then l_ost_idx (hd lov_user_ost_data_v1_new objs)
                else -1;
              ostobjects := objs |}
  end.

(** The argument tuple [setstripe] hands to [llapi_file_open]. *)

Definition setstripe_args (h : host) (filename : pyval) (stripeobj : option stripeObj)
    (stripesize' stripeoffset' stripecount' : Z) : list pyval :=
  let flags := PyInt (O_CREAT h) in
  let mode := PyStr "0700" in
  let stripe_pattern := PyInt 0 in
  let '(stripesize', stripeoffset', stripecount') :=
    match stripeobj with
    | Some o => (stripesize o, stripeoffset o, stripecount o)
    | None => (stripesize', stripeoffset', stripecount')
    end in
  [filename; flags; mode; PyInt stripesize'; PyInt stripeoffset';
   PyInt stripecount'; stripe_pattern].

(** The call itself: the native code writes its messages to descriptor 2
    and, when it succeeds, returns a newly opened descriptor. *)

Definition call_llapi_file_open (h : host) (args : list pyval) : M Z :=
  match llapi_file_open h args with
  | Refused => raise ArgumentError
  | Returned fd text =>
      native_write 2 text ;;
      fun st =>
        (Ok fd,
         if 0 <=? fd
         then with_fds (fd_set (fds st) (Z.to_nat fd)
                          (Some (LustreFile (hd PyNone args)))) st
         else st)
  end.

Definition setstripe (h : host) (filename : pyval) (stripeobj : option stripeObj)
    (stripesize' stripeoffset' stripecount' : Z) : M Z :=
  message <- captureStderr_init ;
  fd <- call_llapi_file_open h
          (setstripe_args h filename stripeobj
             stripesize' stripeoffset' stripecount') ;
  message <- readData message ;
  stopCapture message ;;
  if fd <? 0 then
    let err := 0 - fd in
    raise (IOError err (strerror h err))
  else
    os_close (Z.to_nat fd) ;;
    ret 0.

Definition path2fid (h : host) (filename : string) : result Fid :=
  match llapi_path2fid h [PyBytes filename]
          {| f_seq := 0; f_oid := 0; f_ver := 0 |} with
  | Refused => Raise ArgumentError
  | Returned err lufid =>
      if err <? 0 then
        let err := 0 - err in
        Raise (IOError err (strerror h err))
      else Ok (Fid_init (f_seq lufid) (f_oid lufid) (f_ver lufid))
  end.

Definition get_hsm_state (h : host) (filename : string) : result HSM_state :=
  match llapi_hsm_state_get h [PyBytes filename]
          {| hus_states := 0; hus_archive_id := 0 |} with
  | Refused => Raise ArgumentError
  | Returned err hus =>
      if err <? 0 then
        let err := 0 - err in
        Raise (IOError err (strerror h err))
      else HSM_state_init hus
  end.

Definition set_hsm_state (h : host) (filename : string) (setmask clearmask : list string)
    (archive_id : Z) : M unit :=
  s <- lift (hsm_state_from_flags setmask) ;
  c <- lift (hsm_state_from_flags clearmask) ;
  print [filename; fmt_i s; fmt_i c; fmt_i archive_id] ;;
  s <- lift (hsm_state_from_flags setmask) ;
  c <- lift (hsm_state_from_flags clearmask) ;
  fun st =>
    match llapi_hsm_state_set h
            [PyBytes filename; PyInt s; PyInt c; PyInt archive_id] with
    | Refused => (Raise ArgumentError, st)
    | Returned err _ =>
        if err <? 0 then
          let err := 0 - err in
          (Raise (IOError err (strerror h err)), st)
        else (Ok tt, st)
    end.

(** What the translation of a return code [raw] gives: the failure
    [IOError(-raw, os.strerror(-raw))] for a negative code, [value]
    otherwise. *)

Definition translated {A : Type} (h : host) (raw : Z) (value : A) : result A :=
  if raw <? 0 then Raise (IOError (- raw) (strerror h (- raw))) else Ok value.

(** The system calls of [captureStderr()] and those of [stopCapture]. *)

Definition acquire_calls (message : captureStderr) : list syscall :=
  [Sys_pipe (pipeout message) (pipein message);
   Sys_dup 2 (oldstderr message);
   Sys_dup2 (pipein message) 2].

Definition release_calls (message : captureStderr) : list syscall :=
  [Sys_dup2 (oldstderr message) 2;
   Sys_close (pipeout message);
   Sys_close (pipein message)].

(** The property C5 asks of a successful query: the placements list has
    exactly as many entries as the native stripe count says, and the stripe
    offset is derived from the first entry. *)

Definition copies_reported_count (h : host) (filename : pyval) : Prop :=
  forall err lov,
    llapi_file_get_stripe h [filename] lov_user_md_v1_new = Returned err lov ->
    0 <= err ->
    exists obj,
      getstripe h filename = Ok obj
      /\ Z.of_nat (List.length (ostobjects obj)) = lmm_stripe_count lov
      /\ (forall o rest, ostobjects obj = o :: rest ->
                         stripeoffset obj = l_ost_idx o)
      /\ (ostobjects obj = [] -> stripeoffset obj = -1).

(** ** Sample hosts and a sample process

    A host whose native calls all answer with the same return code, its
    [llapi_file_open] writing a two-byte message to descriptor 2; one
    whose [llapi_file_open] writes nothing; a host whose [llapi_file_open]
    is bound with the declared [argtypes]; and a process with the three
    standard descriptors open. *)

Definition sample_strerror (e : Z) : string :=
  if e =? 2 then "No such file or directory"
  else if e =? 61 then "No data available"
  else "Unknown error".

Definition sample_ost (idx : Z) : lov_user_ost_data_v1 :=
  {| l_object_id := 100 + idx; l_object_gr := 0; l_ost_gen := 0;
     l_ost_idx := idx |}.

Definition sample_lov (count : Z) : lov_user_md_v1 :=
  {| lmm_magic := LUSTREMAGIC; lmm_pattern := 0; lmm_object_id := 1;
     lmm_object_gr := 0; lmm_stripe_size := 1048576;
     lmm_stripe_count := count; lmm_stripe_offset := 0;
     lmm_objects :=
       [sample_ost 7; sample_ost 3] ++ repeat lov_user_ost_data_v1_new 1998 |}.

Definition sample_host (raw : Z) (lov : lov_user_md_v1) : host :=
  {| strerror := sample_strerror;
     O_CREAT := 64;
     llapi_file_get_stripe := fun _ _ => Returned raw lov;
     llapi_file_open := fun _ => Returned raw [Byte.x77; Byte.x0a];
     llapi_path2fid :=
       fun _ _ => Returned raw {| f_seq := 0x100; f_oid := 5; f_ver := 1 |};
     llapi_hsm_state_get :=
       fun _ _ => Returned raw {| hus_states := 9; hus_archive_id := 2 |};
     llapi_hsm_state_set := fun _ => Returned raw tt |}.

(** A host whose [llapi_file_open] returns [raw] and writes nothing to
    descriptor 2. *)

Definition silent_host (raw : Z) : host :=
  {| strerror := sample_strerror;
     O_CREAT := 64;
     llapi_file_get_stripe := fun _ _ => Returned raw (sample_lov 0);
     llapi_file_open := fun _ => Returned raw [];
     llapi_path2fid :=
       fun _ _ => Returned raw {| f_seq := 0x100; f_oid := 5; f_ver := 1 |};
     llapi_hsm_state_get :=
       fun _ _ => Returned raw {| hus_states := 9; hus_archive_id := 2 |};
     llapi_hsm_state_set := fun _ => Returned raw tt |}.

Definition bind_file_open (h : host)
    (native : list cval -> ffi_outcome (list Byte.byte)) : host :=
  {| strerror := strerror h;
     O_CREAT := O_CREAT h;
     llapi_file_get_stripe := llapi_file_get_stripe h;
     llapi_file_open := ctypes_bind llapi_file_open_argtypes native;
     llapi_path2fid := llapi_path2fid h;
     llapi_hsm_state_get := llapi_hsm_state_get h;
     llapi_hsm_state_set := llapi_hsm_state_set h |}.

Definition sample_process : os_state :=
  {| fds := [Some (Stream 0); Some (Stream 1); Some (Stream 2)];
     pipes := []; written := []; stdout := []; syscalls := [] |}.

(** ** Further notions used by the properties of the codec *)

(** The flag names of the table that occur in [l], in table order. *)

Definition in_table_order (l : list string) : list string :=
  filter (fun n => existsb (String.eqb n) l) flag_names.

Definition decode_shape_ok (r : Z) : bool :=
  let l := flags_of_mask r flag_values in
  (if list_eq_dec string_dec l (in_table_order l) then true else false)
  && (List.length l <=? 7)%nat
  && negb (existsb (String.eqb "NONE") l).

(** At most one of the bits of [m] is set. *)

Definition at_most_one_bit (m : Z) : bool := Z.land m (m - 1) =? 0.

Definition summary_threshold_ok (r : Z) : bool :=
  Bool.eqb (List.length (flags_of_mask r flag_values) <=? 1)%nat
           (at_most_one_bit r).

(** A host whose [llapi_hsm_state_set] is a native function bound with the
    declared [argtypes]. *)

Definition bind_hsm_state_set (h : host)
    (native : list cval -> ffi_outcome unit) : host :=
  {| strerror := strerror h;
     O_CREAT := O_CREAT h;
     llapi_file_get_stripe := llapi_file_get_stripe h;
     llapi_file_open := llapi_file_open h;
     llapi_path2fid := llapi_path2fid h;
     llapi_hsm_state_get := llapi_hsm_state_get h;
     llapi_hsm_state_set := ctypes_bind llapi_hsm_state_set_argtypes native |}.

(** The line [set_hsm_state] prints. *)

Definition set_hsm_state_line (filename : string) (s c archive : Z) : string :=
  String.concat " " [filename; fmt_i s; fmt_i c; fmt_i archive] ++ newline.

(** The four attributes of a stripe object a caller reads, for comparing
    two results of [getstripe]. *)

Definition stripe_fields (r : result stripeObj)
    : result (Z * Z * Z * list lov_user_ost_data_v1) :=
  match r with
  | Ok obj => Ok (stripecount obj, stripesize obj, stripeoffset obj,
                  ostobjects obj)
  | Raise e => Raise e
  end.

(** ** Text forms: [Fid.__str__] and [stripeObj.__str__] *)

(** [%x] of a Python integer: lower-case hexadecimal, no prefix. *)

Definition fmt_x (z : Z) : string :=
  HexadecimalString.NilZero.string_of_int (Z.to_hex_int z).

Definition Fid_str (self : Fid) : string :=
  ("[0x" ++ fmt_x (seq self) ++ ":0x" ++ fmt_x (oid self)
   ++ ":0x" ++ fmt_x (ver self) ++ "]")%string.

Definition tab : string := String (ascii_of_nat 9) EmptyString.

Definition stripeObj_str_line (ost : lov_user_ost_data_v1) : string :=
  ("Objidx:" ++ tab ++ " " ++ fmt_i (l_ost_idx ost) ++ " " ++ tab
   ++ "Objid:" ++ tab ++ " " ++ fmt_i (l_object_id ost) ++ newline)%string.

Definition stripeObj_str (self : stripeObj) : string :=
  let string :=
    ("Stripe Count: " ++ fmt_i (stripecount self)
     ++ " Stripe Size: " ++ fmt_i (stripesize self)
     ++ " Stripe Offset: " ++ fmt_i (stripeoffset self) ++ newline)%string in
  fold_left (fun string ost => (string ++ stripeObj_str_line ost)%string)
    (ostobjects self) string.

Fixpoint count_char (c : ascii) (s : string) : nat :=
  match s with
  | EmptyString => O
  | String a rest =>
      ((if Ascii.eqb a c then 1 else 0) + count_char c rest)%nat
  end.

(** * Properties *)

Lemma HSM_FLAGS_parses : Forall2 parses HSM_FLAGS flag_values.
Proof. repeat constructor. Qed.

Lemma occ_cons (name flag : string) (flags : list string) :
  occ name (flag :: flags)
  = (if String.eqb name flag then 1 else 0) + occ name flags.
Proof.
  unfold occ. simpl.
  destruct (string_dec flag name) as [->|Hne].
  - rewrite String.eqb_refl. lia.
  - destruct (String.eqb_spec name flag); [congruence | lia].
Qed.

Lemma occ_nonneg (name : string) (flags : list string) : 0 <= occ name flags.
Proof. unfold occ. lia. Qed.

Lemma occ_pos_In (name : string) (flags : list string) :
  0 < occ name flags <-> In name flags.
Proof.
  unfold occ. rewrite (count_occ_In string_dec). lia.
Qed.

Lemma occ_NoDup (name : string) (flags : list string) :
  NoDup flags -> occ name flags = 0 \/ occ name flags = 1.
Proof.
  intros H. rewrite (NoDup_count_occ string_dec) in H.
  specialize (H name). unfold occ. lia.
Qed.

Lemma inner_counts (flag_def : string * string) (nv : string * Z) :
  parses flag_def nv ->
  forall flags state,
    hsm_state_from_flags_inner flag_def flags state
    = Ok (state + snd nv * occ (fst nv) flags).
Proof.
  intros [Hn Hv] flags. induction flags as [|flag rest IH]; intros state.
  - simpl. unfold occ. simpl. f_equal. lia.
  - simpl. rewrite occ_cons, Hn.
    destruct (String.eqb (fst nv) flag).
    + rewrite Hv. cbn [rbind]. rewrite IH. f_equal; ring.
    + rewrite IH. f_equal; ring.
Qed.

Lemma outer_counts (table : list (string * string)) (vals : list (string * Z)) :
  Forall2 parses table vals ->
  forall flags state,
    hsm_state_from_flags_outer table flags state
    = Ok (state + weighted_occ vals flags).
Proof.
  induction 1 as [|flag_def nv table vals Hp _ IH]; intros flags state.
  - simpl. f_equal. lia.
  - simpl. rewrite (inner_counts _ _ Hp). simpl. rewrite IH.
    destruct nv as [n v]. simpl. f_equal. lia.
Qed.

Lemma hsm_state_from_flags_weighted (flags : list string) :
  hsm_state_from_flags flags = Ok (weighted_occ flag_values flags).
Proof.
  unfold hsm_state_from_flags.
  rewrite (outer_counts _ _ HSM_FLAGS_parses). reflexivity.
Qed.

Lemma HSM_state_loop_flags (table : list (string * string))
    (vals : list (string * Z)) :
  Forall2 parses table vals ->
  forall state acc,
    HSM_state_loop state table acc = Ok (acc ++ flags_of_mask state vals).
Proof.
  induction 1 as [|flag_def nv table vals [Hn Hv] _ IH]; intros state acc.
  - simpl. now rewrite app_nil_r.
  - simpl. rewrite Hv. simpl. destruct nv as [n v]. simpl in *.
    destruct (Z.land state v =? 0).
    + apply IH.
    + rewrite IH, Hn, <- app_assoc. reflexivity.
Qed.

Lemma HSM_state_init_flags (hus : hsm_user_state) :
  HSM_state_init hus
  = Ok {| archive_id := hus_archive_id hus;
          states := flags_of_mask (hus_states hus) flag_values |}.
Proof.
  unfold HSM_state_init.
  rewrite (HSM_state_loop_flags _ _ HSM_FLAGS_parses). reflexivity.
Qed.

Lemma flags_of_weighted_bits (b0 b1 b2 b3 b4 b5 b6 b7 : Z) :
  (b1 = 0 \/ b1 = 1) -> (b2 = 0 \/ b2 = 1) -> (b3 = 0 \/ b3 = 1) ->
  (b4 = 0 \/ b4 = 1) -> (b5 = 0 \/ b5 = 1) -> (b6 = 0 \/ b6 = 1) ->
  (b7 = 0 \/ b7 = 1) ->
  flags_of_mask
    (0 * b0 + (1 * b1 + (2 * b2 + (4 * b3 + (8 * b4 + (16 * b5
       + (32 * b6 + (64 * b7 + 0))))))))
    flag_values
  = pick b1 "EXISTS" ++ pick b2 "DIRTY" ++ pick b3 "RELEASED"
    ++ pick b4 "ARCHIVED" ++ pick b5 "NORELEASE" ++ pick b6 "NOARCHIVE"
    ++ pick b7 "LOST".
Proof.
  intros [-> | ->] [-> | ->] [-> | ->] [-> | ->] [-> | ->] [-> | ->] [-> | ->];
    reflexivity.
Qed.

Lemma In_pick (x name : string) (flags : list string) :
  In x (pick (occ name flags) name) <-> x = name /\ In name flags.
Proof.
  unfold pick. rewrite <- (occ_pos_In name flags).
  destruct (Z.ltb_spec 0 (occ name flags)) as [Hlt|Hge]; simpl.
  - split; [intros [<-|[]]; auto | intros [-> _]; auto].
  - split; [intros [] | intros [_ Hlt]; lia].
Qed.

Lemma flags_of_mask_low (M : Z) :
  flags_of_mask M flag_values = flags_of_mask (Z.land M 127) flag_values.
Proof.
  assert (H : forall v, Z.land 127 v = v -> Z.land (Z.land M 127) v = Z.land M v).
  { intros v Hv. rewrite <- Z.land_assoc, Hv. reflexivity. }
  unfold flag_values. cbn [flags_of_mask].
  rewrite !H by reflexivity. reflexivity.
Qed.

Lemma low_masks_roundtrip :
  forallb roundtrips_mask (map Z.of_nat (List.seq 0 128)) = true.
Proof. vm_compute. reflexivity. Qed.

Lemma low_mask_roundtrip (r : Z) :
  0 <= r < 128 ->
  hsm_state_from_flags (flags_of_mask r flag_values) = Ok r.
Proof.
  intros Hr.
  pose proof low_masks_roundtrip as H. rewrite forallb_forall in H.
  specialize (H r). unfold roundtrips_mask in H.
  destruct (hsm_state_from_flags (flags_of_mask r flag_values)) as [m|e].
  - f_equal. apply Z.eqb_eq. apply H.
    rewrite <- (Z2Nat.id r) by lia. apply in_map, in_seq. lia.
  - discriminate H.
    rewrite <- (Z2Nat.id r) by lia. apply in_map, in_seq. lia.
Qed.

Lemma occ_filter_known (name : string) (flags : list string) :
  known_flag name = true ->
  occ name (filter known_flag flags) = occ name flags.
Proof.
  intros Hk. induction flags as [|flag rest IH]; [reflexivity|].
  simpl. destruct (known_flag flag) eqn:Hf.
  - rewrite !occ_cons, IH. reflexivity.
  - rewrite occ_cons, IH.
    destruct (String.eqb_spec name flag); [congruence | reflexivity].
Qed.

(** ** HSM flag codec *)

(** C3 (amended): for every input sequence of flag names, encoding never
    fails and adds each table flag's bit value once per occurrence of its
    name in the input (hence exactly once when no name is repeated); names
    that are not in the flag table contribute nothing and are silently
    ignored. *)
Theorem hsm_state_from_flags_counts_occurrences (flags : list string) :
  hsm_state_from_flags flags
  = Ok (1 * occ "EXISTS" flags + 2 * occ "DIRTY" flags
        + 4 * occ "RELEASED" flags + 8 * occ "ARCHIVED" flags
        + 16 * occ "NORELEASE" flags + 32 * occ "NOARCHIVE" flags
        + 64 * occ "LOST" flags)
  /\ hsm_state_from_flags (filter known_flag flags)
     = hsm_state_from_flags flags
  /\ (NoDup flags ->
      sums_each_flag_once flags
      /\ forall name, occ name flags = 0 \/ occ name flags = 1).
Proof.
  split; [|split].
  - rewrite hsm_state_from_flags_weighted. f_equal.
    unfold flag_values. cbn [weighted_occ]. ring.
  - rewrite !hsm_state_from_flags_weighted. f_equal.
    unfold flag_values. cbn [weighted_occ].
    rewrite !occ_filter_known by reflexivity. reflexivity.
  - intros Hnd. split.
    + unfold sums_each_flag_once. now rewrite nodup_fixed_point.
    + intros name. apply occ_NoDup, Hnd.
Qed.

(** C1 (amended): for every duplicate-free set [F] of flag names drawn from
    the flag table, decoding the mask obtained by encoding [F] yields the
    flags of [F] other than [NONE] (so exactly [F] when [NONE] is not in
    it); and for every 32-bit mask [M], encoding the flags decoded from [M]
    yields the bits of [M] that the table names, [M & 0x7F] (so exactly [M]
    when [M <= 0x7F]). *)
Theorem flag_codec_roundtrip (F : list string) (M a : Z) :
  NoDup F ->
  incl F flag_names ->
  0 <= M < 2 ^ 32 ->
  (exists m st,
      hsm_state_from_flags F = Ok m
      /\ HSM_state_init {| hus_states := m; hus_archive_id := a |} = Ok st
      /\ (forall x, In x (states st) <-> In x F /\ x <> "NONE"))
  /\ (~ In "NONE" F -> decode_encode_roundtrips F a)
  /\ (exists st,
         HSM_state_init {| hus_states := M; hus_archive_id := a |} = Ok st
         /\ hsm_state_from_flags (states st) = Ok (Z.land M 127))
  /\ (M <= 127 -> encode_decode_roundtrips M a).
Proof.
  intros Hnd Hincl HM.
  assert (Hall : forall x, In x (flags_of_mask (weighted_occ flag_values F)
                                   flag_values)
                           <-> In x F /\ x <> "NONE").
  { intros x. unfold flag_values at 1. cbn [weighted_occ].
    rewrite flags_of_weighted_bits by (apply occ_NoDup; exact Hnd).
    rewrite !in_app_iff, !In_pick. split.
    - intros H.
      repeat (destruct H as [[-> H] | H]; [split; [exact H | discriminate]|]).
      destruct H as [-> H]. split; [exact H | discriminate].
    - intros [HF Hne]. pose proof (Hincl x HF) as Hx. simpl in Hx.
      repeat (destruct Hx as [<- | Hx]; [tauto|]). destruct Hx. }
  assert (Hlow : 0 <= Z.land M 127 < 128).
  { change 127 with (Z.ones 7). rewrite Z.land_ones by lia.
    apply Z.mod_pos_bound. reflexivity. }
  split; [|split; [|split]].
  - exists (weighted_occ flag_values F). eexists.
    split; [apply hsm_state_from_flags_weighted|].
    split; [apply HSM_state_init_flags|]. exact Hall.
  - intros HNone. exists (weighted_occ flag_values F). eexists.
    split; [apply hsm_state_from_flags_weighted|].
    split; [apply HSM_state_init_flags|].
    intros x. cbn [states]. rewrite Hall. split; [tauto|].
    intros Hx. split; [exact Hx | congruence].
  - eexists. split; [apply HSM_state_init_flags|].
    cbn [states hus_states].
    rewrite flags_of_mask_low. apply low_mask_roundtrip. exact Hlow.
  - intros Hle. eexists. split; [apply HSM_state_init_flags|].
    cbn [states hus_states]. apply low_mask_roundtrip. lia.
Qed.

(** ** Descriptor table *)

Lemma fd_lookup_nil (fd : nat) : fd_lookup [] fd = None.
Proof. unfold fd_lookup. destruct fd; reflexivity. Qed.

Lemma fd_lookup_cons (x : option ofd) (tbl : list (option ofd)) (fd : nat) :
  fd_lookup (x :: tbl) (S fd) = fd_lookup tbl fd.
Proof. reflexivity. Qed.

Lemma fd_lookup_set (tbl : list (option ofd)) (a b : nat) (v : option ofd) :
  fd_lookup (fd_set tbl a v) b = if Nat.eqb a b then v else fd_lookup tbl b.
Proof.
  revert tbl b. induction a as [|a IH]; intros tbl b.
  - destruct tbl as [|x tbl], b as [|b]; simpl.
    + unfold fd_lookup. simpl. destruct v; reflexivity.
    + rewrite fd_lookup_cons, !fd_lookup_nil. reflexivity.
    + unfold fd_lookup. simpl. destruct v; reflexivity.
    + rewrite !fd_lookup_cons. reflexivity.
  - destruct tbl as [|x tbl], b as [|b]; simpl; try reflexivity.
    + rewrite fd_lookup_cons, IH, !fd_lookup_nil. reflexivity.
    + rewrite !fd_lookup_cons, IH. reflexivity.
Qed.

Lemma lowest_unused_free (tbl : list (option ofd)) :
  fd_lookup tbl (lowest_unused tbl) = None.
Proof.
  induction tbl as [|[o|] tbl IH]; try reflexivity. exact IH.
Qed.

Lemma list_set_length {A : Type} (l : list A) (i : nat) (a : A) :
  List.length (list_set l i a) = List.length l.
Proof.
  revert i. induction l as [|x l IH]; intros [|i]; simpl; auto.
Qed.

Lemma nth_list_set {A : Type} (l : list A) (i : nat) (a d : A) :
  (i < List.length l)%nat -> nth i (list_set l i a) d = a.
Proof.
  revert i. induction l as [|x l IH]; intros [|i] H; simpl in *;
    try lia; auto. apply IH. lia.
Qed.

(** ** Diagnostic capture *)

Lemma list_set_app_last {A : Type} (l : list A) (a b : A) :
  list_set (l ++ [a]) (List.length l) b = l ++ [b].
Proof.
  induction l as [|x l IH]; simpl; [reflexivity|]. rewrite IH. reflexivity.
Qed.

Lemma nth_app_last {A : Type} (l : list A) (a d : A) :
  nth (List.length l) (l ++ [a]) d = a.
Proof.
  induction l as [|x l IH]; simpl; [reflexivity | exact IH].
Qed.

(** The fuel [readData] gives its loop is enough, whatever [contents]
    holds. *)
Lemma readData_loop_fuel (fuel : nat) :
  forall (self : captureStderr) (st : os_state) (p : nat),
    fd_lookup (fds st) (pipeout self) = Some (PipeR p) ->
    (p < List.length (pipes st))%nat ->
    (List.length (nth p (pipes st) []) < fuel)%nat ->
    fst (readData_loop fuel self st) <> Raise FuelExhausted.
Proof.
  induction fuel as [|fuel IH]; intros self st p Hfd Hp Hlen; [lia|].
  cbn [readData_loop]. unfold bind at 1. unfold checkData, select_read.
  rewrite Hfd.
  destruct (nth p (pipes st) []) as [|b buf] eqn:Hbuf.
  - cbn [List.length Nat.eqb negb]. unfold ret. cbn [fst]. discriminate.
  - cbn [List.length Nat.eqb negb].
    unfold bind at 1. unfold os_read. cbn [fds log_syscall]. rewrite Hfd.
    cbn [pipes log_syscall]. rewrite Hbuf.
    unfold bind at 1. unfold lift.
    destruct (py_add (contents self)
                (PyBytes (string_of_list_byte (firstn 1024 (b :: buf)))))
      as [sum|e] eqn:Hadd.
    + apply (IH _ _ p).
      * exact Hfd.
      * cbn [pipes log_syscall with_pipes]. rewrite list_set_length. exact Hp.
      * cbn [pipes log_syscall with_pipes].
        rewrite nth_list_set by exact Hp. rewrite length_skipn.
        simpl in Hlen. simpl. lia.
    + cbn [fst]. unfold py_add in Hadd.
      destruct (contents self); inversion Hadd; discriminate.
Qed.

(** With nothing pending, [readData] tests the pipe once and returns. *)
Lemma readData_idle (self : captureStderr) (st : os_state) (p : nat) :
  fd_lookup (fds st) (pipeout self) = Some (PipeR p) ->
  nth p (pipes st) [] = [] ->
  readData self st = (Ok self, log_syscall (Sys_select (pipeout self)) st).
Proof.
  intros Hfd Hbuf. unfold readData, pending. rewrite Hfd, Hbuf.
  cbn [List.length readData_loop]. unfold bind, checkData, select_read.
  rewrite Hfd, Hbuf. reflexivity.
Qed.

(** With bytes pending and a [str] in [contents], the first round of
    [readData] takes up to 1024 bytes off the pipe and raises
    [TypeError]. *)
Lemma readData_str_raises (self : captureStderr) (st : os_state) (p : nat)
    (s : string) (b : Byte.byte) (buf : list Byte.byte) :
  contents self = PyStr s ->
  fd_lookup (fds st) (pipeout self) = Some (PipeR p) ->
  nth p (pipes st) [] = b :: buf ->
  readData self st
  = (Raise TypeError,
     log_syscall (Sys_read (pipeout self) 1024)
       (with_pipes (list_set (pipes st) p (skipn 1024 (b :: buf)))
          (log_syscall (Sys_select (pipeout self)) st))).
Proof.
  intros Hc Hfd Hbuf. unfold readData, pending. rewrite Hfd, Hbuf.
  cbn [List.length readData_loop]. unfold bind at 1.
  unfold checkData, select_read. rewrite Hfd, Hbuf.
  cbn [List.length Nat.eqb negb].
  unfold bind at 1. unfold os_read. cbn [fds log_syscall]. rewrite Hfd.
  cbn [pipes log_syscall]. rewrite Hbuf.
  unfold bind at 1. unfold lift. rewrite Hc. reflexivity.
Qed.

Lemma captureStderr_init_run (st : os_state) (tgt : ofd) :
  fd_lookup (fds st) 2 = Some tgt ->
  exists r w old st1,
    captureStderr_init st
    = (Ok {| pipeout := r; pipein := w; oldstderr := old;
             contents := PyStr "" |}, st1)
    /\ fd_lookup (fds st1) 2 = Some (PipeW (List.length (pipes st)))
    /\ fd_lookup (fds st1) r = Some (PipeR (List.length (pipes st)))
    /\ fd_lookup (fds st1) w = Some (PipeW (List.length (pipes st)))
    /\ fd_lookup (fds st1) old = Some tgt
    /\ (r <> 2 /\ w <> 2 /\ old <> 2 /\ r <> w /\ r <> old /\ w <> old)%nat
    /\ pipes st1 = pipes st ++ [[]]
    /\ syscalls st1 = syscalls st ++ [Sys_pipe r w; Sys_dup 2 old; Sys_dup2 w 2].
Proof.
  intros H2.
  set (p := List.length (pipes st)).
  set (r := lowest_unused (fds st)).
  set (tbl1 := fd_set (fds st) r (Some (PipeR p))).
  set (w := lowest_unused tbl1).
  set (tbl2 := fd_set tbl1 w (Some (PipeW p))).
  set (old := lowest_unused tbl2).
  assert (Hr : fd_lookup (fds st) r = None) by apply lowest_unused_free.
  assert (Hw : fd_lookup tbl1 w = None) by apply lowest_unused_free.
  assert (Ho : fd_lookup tbl2 old = None) by apply lowest_unused_free.
  assert (Hr2 : r <> 2%nat) by (intros E; rewrite E in Hr; congruence).
  assert (Er2 : Nat.eqb r 2 = false) by (apply Nat.eqb_neq; exact Hr2).
  assert (H21 : fd_lookup tbl1 2 = Some tgt).
  { unfold tbl1. rewrite fd_lookup_set, Er2. exact H2. }
  assert (Hw2 : w <> 2%nat) by (intros E; rewrite E in Hw; congruence).
  assert (Ew2 : Nat.eqb w 2 = false) by (apply Nat.eqb_neq; exact Hw2).
  assert (Hrw : r <> w).
  { intros E. unfold tbl1 in Hw. rewrite fd_lookup_set, E, Nat.eqb_refl in Hw.
    discriminate. }
  assert (H22 : fd_lookup tbl2 2 = Some tgt).
  { unfold tbl2. rewrite fd_lookup_set, Ew2. exact H21. }
  assert (Ho2 : old <> 2%nat) by (intros E; rewrite E in Ho; congruence).
  assert (How : w <> old).
  { intros E. unfold tbl2 in Ho. rewrite fd_lookup_set, E, Nat.eqb_refl in Ho.
    discriminate. }
  assert (Hor : r <> old).
  { intros E. unfold tbl2, tbl1 in Ho. rewrite !fd_lookup_set in Ho.
    rewrite <- E in Ho. rewrite Nat.eqb_refl in Ho.
    destruct (Nat.eqb w r); discriminate. }
  exists r, w, old.
  eexists. split.
  - unfold captureStderr_init, bind, os_pipe. cbn [fst snd].
    unfold os_dup at 1. cbn [fds log_syscall with_pipes with_fds].
    fold p. fold r. fold tbl1. fold w. fold tbl2. rewrite H22.
    fold old. unfold os_dup2. cbn [fds log_syscall with_pipes with_fds].
    rewrite fd_lookup_set.
    replace (Nat.eqb old w) with false
      by (symmetry; apply Nat.eqb_neq; congruence).
    unfold tbl2 at 1. rewrite fd_lookup_set, Nat.eqb_refl.
    unfold ret. reflexivity.
  - cbn [fds pipes syscalls log_syscall with_pipes with_fds].
    assert (Eo2 : Nat.eqb old 2 = false) by (apply Nat.eqb_neq; exact Ho2).
    assert (E2r : Nat.eqb 2 r = false) by (apply Nat.eqb_neq; congruence).
    assert (E2w : Nat.eqb 2 w = false) by (apply Nat.eqb_neq; congruence).
    assert (E2o : Nat.eqb 2 old = false) by (apply Nat.eqb_neq; congruence).
    assert (Eor : Nat.eqb old r = false) by (apply Nat.eqb_neq; congruence).
    assert (Eow : Nat.eqb old w = false) by (apply Nat.eqb_neq; congruence).
    assert (Ewr : Nat.eqb w r = false) by (apply Nat.eqb_neq; congruence).
    unfold tbl2, tbl1.
    repeat split; auto;
      rewrite ?fd_lookup_set, ?Nat.eqb_refl, ?E2r, ?E2w, ?E2o, ?Eor, ?Eow, ?Ewr;
      try reflexivity.
    rewrite <- !app_assoc. reflexivity.
Qed.

(** A write of native code to descriptor 2 while the capture is set up
    and its pipe still empty. *)
Lemma native_write_captured (st1 : os_state) (ps : list (list Byte.byte))
    (text : list Byte.byte) :
  fd_lookup (fds st1) 2 = Some (PipeW (List.length ps)) ->
  pipes st1 = ps ++ [[]] ->
  native_write 2 text st1
  = if (List.length text <=? PIPE_CAPACITY)%nat
    then (Ok tt, with_pipes (ps ++ [text]) st1)
    else (Raise Blocked, with_pipes (ps ++ [firstn PIPE_CAPACITY text]) st1).
Proof.
  intros H2 Hp. unfold native_write. rewrite H2, Hp, nth_app_last.
  cbn [app]. rewrite !list_set_app_last. reflexivity.
Qed.

(** The capture and the native call of [setstripe], for a call that
    returns after writing [text], which fits the pipe. *)
Lemma capture_then_call (h : host) (args : list pyval) (st : os_state)
    (tgt : ofd) (raw : Z) (text : list Byte.byte) :
  fd_lookup (fds st) 2 = Some tgt ->
  llapi_file_open h args = Returned raw text ->
  (List.length text <= PIPE_CAPACITY)%nat ->
  (0 <= raw ->
   fd_lookup (fds (snd (captureStderr_init st))) (Z.to_nat raw) = None) ->
  exists r w old st1 st2,
    captureStderr_init st
    = (Ok {| pipeout := r; pipein := w; oldstderr := old;
             contents := PyStr "" |}, st1)
    /\ call_llapi_file_open h args st1 = (Ok raw, st2)
    /\ fd_lookup (fds st2) 2 = Some (PipeW (List.length (pipes st)))
    /\ fd_lookup (fds st2) r = Some (PipeR (List.length (pipes st)))
    /\ fd_lookup (fds st2) w = Some (PipeW (List.length (pipes st)))
    /\ fd_lookup (fds st2) old = Some tgt
    /\ (r <> 2 /\ w <> 2 /\ old <> 2 /\ r <> w /\ r <> old /\ w <> old)%nat
    /\ (0 <= raw ->
        fd_lookup (fds st2) (Z.to_nat raw) = Some (LustreFile (hd PyNone args))
        /\ (Z.to_nat raw <> 2 /\ Z.to_nat raw <> r /\ Z.to_nat raw <> w
            /\ Z.to_nat raw <> old)%nat)
    /\ pipes st2 = pipes st ++ [text]
    /\ syscalls st2
       = syscalls st ++ [Sys_pipe r w; Sys_dup 2 old; Sys_dup2 w 2]
    /\ written st2 = written st1
    /\ stdout st2 = stdout st1.
Proof.
  intros H2 Hcall Hfit Hfresh.
  destruct (captureStderr_init_run st tgt H2)
    as (r & w & old & st1 & Hinit & L2 & Lr & Lw & Lo & Hne & Hpipes & Hsys1).
  rewrite Hinit in Hfresh. cbn [snd] in Hfresh.
  exists r, w, old, st1.
  assert (Hn : 0 <= raw ->
               (Z.to_nat raw <> 2 /\ Z.to_nat raw <> r /\ Z.to_nat raw <> w
                /\ Z.to_nat raw <> old)%nat).
  { intros Hge. specialize (Hfresh Hge).
    repeat split; intros E; rewrite E in Hfresh; congruence. }
  eexists. split; [exact Hinit|]. split.
  { unfold call_llapi_file_open. rewrite Hcall. unfold bind.
    rewrite (native_write_captured st1 (pipes st) text L2 Hpipes).
    apply Nat.leb_le in Hfit. rewrite Hfit. reflexivity. }
  destruct (Z.leb_spec 0 raw) as [Hge|Hlt].
  - destruct (Hn Hge) as (Hn2 & Hnr & Hnw & Hno).
    cbn [fds pipes syscalls written stdout with_fds with_pipes].
    rewrite !fd_lookup_set, Nat.eqb_refl.
    replace (Nat.eqb (Z.to_nat raw) 2) with false
      by (symmetry; apply Nat.eqb_neq; auto).
    replace (Nat.eqb (Z.to_nat raw) r) with false
      by (symmetry; apply Nat.eqb_neq; auto).
    replace (Nat.eqb (Z.to_nat raw) w) with false
      by (symmetry; apply Nat.eqb_neq; auto).
    replace (Nat.eqb (Z.to_nat raw) old) with false
      by (symmetry; apply Nat.eqb_neq; auto).
    repeat split; auto; tauto.
  - cbn [fds pipes syscalls written stdout with_fds with_pipes].
    repeat split; auto; try tauto; lia.
Qed.

(** [setstripe] when the native call returns without having written to
    descriptor 2: the capture is released, then the code is tested. *)
Lemma setstripe_silent_run (h : host) (filename : pyval)
    (stripeobj : option stripeObj) (size offset count : Z) (st : os_state)
    (tgt : ofd) (raw : Z) :
  fd_lookup (fds st) 2 = Some tgt ->
  llapi_file_open h (setstripe_args h filename stripeobj size offset count)
  = Returned raw [] ->
  (0 <= raw ->
   fd_lookup (fds (snd (captureStderr_init st))) (Z.to_nat raw) = None) ->
  exists message st',
    fst (captureStderr_init st) = Ok message
    /\ setstripe h filename stripeobj size offset count st
       = (if raw <? 0
          then Raise (IOError (0 - raw) (strerror h (0 - raw)))
          else Ok 0, st')
    /\ syscalls st'
       = syscalls st
         ++ [Sys_pipe (pipeout message) (pipein message);
             Sys_dup 2 (oldstderr message);
             Sys_dup2 (pipein message) 2;
             Sys_select (pipeout message);
             Sys_dup2 (oldstderr message) 2;
             Sys_close (pipeout message);
             Sys_close (pipein message)]
         ++ (if raw <? 0 then [] else [Sys_close (Z.to_nat raw)])
    /\ fd_lookup (fds st') 2 = Some tgt
    /\ fd_lookup (fds st') (pipeout message) = None
    /\ fd_lookup (fds st') (pipein message) = None
    /\ fd_lookup (fds st') (oldstderr message) = Some tgt
    /\ (0 <= raw -> fd_lookup (fds st') (Z.to_nat raw) = None).
Proof.
  intros H2 Hcall Hfresh.
  destruct (capture_then_call h _ st tgt raw [] H2 Hcall
              ltac:(cbn [List.length]; unfold PIPE_CAPACITY; lia) Hfresh)
    as (r & w & old & st1 & st2 & Hinit & Hrun & L2 & Lr & Lw & Lo & Hne
        & Hraw & Hpipes & Hsys & _ & _).
  destruct Hne as (Hr2 & Hw2 & Ho2 & Hrw & Hro & Hwo).
  set (message := {| pipeout := r; pipein := w; oldstderr := old;
                     contents := PyStr "" |}) in *.
  set (n := Z.to_nat raw) in *.
  assert (Hidle : readData message st2
                  = (Ok message, log_syscall (Sys_select r) st2)).
  { apply (readData_idle message st2 (List.length (pipes st))); [exact Lr|].
    rewrite Hpipes. apply nth_app_last. }
  assert (Er2 : Nat.eqb r 2 = false) by (apply Nat.eqb_neq; auto).
  assert (E2r : Nat.eqb 2 r = false) by (apply Nat.eqb_neq; auto).
  assert (E2w : Nat.eqb 2 w = false) by (apply Nat.eqb_neq; auto).
  assert (E2o : Nat.eqb 2 old = false) by (apply Nat.eqb_neq; auto).
  assert (Erw : Nat.eqb r w = false) by (apply Nat.eqb_neq; auto).
  assert (Ewr : Nat.eqb w r = false) by (apply Nat.eqb_neq; auto).
  assert (Ew2 : Nat.eqb w 2 = false) by (apply Nat.eqb_neq; auto).
  assert (Ero : Nat.eqb r old = false) by (apply Nat.eqb_neq; auto).
  assert (Ewo : Nat.eqb w old = false) by (apply Nat.eqb_neq; auto).
  set (stA := log_syscall (Sys_close w)
                (with_fds (fd_set (fd_set (fd_set (fds st2) 2 (Some tgt)) r None)
                             w None)
                   (log_syscall (Sys_close r)
                      (log_syscall (Sys_dup2 old 2)
                         (log_syscall (Sys_select r) st2))))).
  assert (Hstop : stopCapture message (log_syscall (Sys_select r) st2)
                  = (Ok tt, stA)).
  { unfold stopCapture, bind. cbn [pipeout pipein oldstderr message].
    unfold os_dup2. cbn [fds log_syscall]. rewrite Lo.
    unfold os_close at 1. cbn [fds log_syscall with_fds].
    rewrite fd_lookup_set, E2r, Lr.
    unfold os_close at 1. cbn [fds log_syscall with_fds].
    rewrite !fd_lookup_set, Erw, E2w, Lw.
    reflexivity. }
  assert (A2 : fd_lookup (fds stA) 2 = Some tgt).
  { unfold stA. cbn [fds log_syscall with_fds].
    rewrite !fd_lookup_set, Ew2, Er2, Nat.eqb_refl. reflexivity. }
  assert (Ar : fd_lookup (fds stA) r = None).
  { unfold stA. cbn [fds log_syscall with_fds].
    rewrite !fd_lookup_set, Ewr, Nat.eqb_refl. reflexivity. }
  assert (Aw : fd_lookup (fds stA) w = None).
  { unfold stA. cbn [fds log_syscall with_fds].
    rewrite !fd_lookup_set, Nat.eqb_refl. reflexivity. }
  assert (Ao : fd_lookup (fds stA) old = Some tgt).
  { unfold stA. cbn [fds log_syscall with_fds].
    rewrite !fd_lookup_set, Ewo, Ero, E2o. exact Lo. }
  assert (Asys : syscalls stA
                 = syscalls st
                   ++ [Sys_pipe r w; Sys_dup 2 old; Sys_dup2 w 2; Sys_select r;
                       Sys_dup2 old 2; Sys_close r; Sys_close w]).
  { unfold stA. cbn [syscalls log_syscall with_fds]. rewrite Hsys.
    rewrite <- !app_assoc. reflexivity. }
  exists message.
  exists (if raw <? 0 then stA
          else log_syscall (Sys_close n) (with_fds (fd_set (fds stA) n None) stA)).
  split; [rewrite Hinit; reflexivity|].
  cbn [pipeout pipein oldstderr message].
  destruct (Z.ltb_spec raw 0) as [Hlt|Hge].
  - split.
    { unfold setstripe. unfold bind at 1. rewrite Hinit.
      unfold bind at 1. rewrite Hrun.
      unfold bind at 1. rewrite Hidle.
      unfold bind at 1. rewrite Hstop.
      destruct (Z.ltb_spec raw 0); [reflexivity | lia]. }
    rewrite Asys, app_nil_r. repeat split; auto. lia.
  - destruct (Hraw Hge) as (Ln & Hn2 & Hnr & Hnw & Hno). fold n in Ln, Hn2, Hnr, Hnw, Hno.
    split.
    { unfold setstripe. unfold bind at 1. rewrite Hinit.
      unfold bind at 1. rewrite Hrun.
      unfold bind at 1. rewrite Hidle.
      unfold bind at 1. rewrite Hstop.
      destruct (Z.ltb_spec raw 0); [lia|].
      unfold bind, os_close. fold n.
      replace (fd_lookup (fds stA) n)
        with (Some (LustreFile
                      (hd PyNone
                         (setstripe_args h filename stripeobj size offset
                            count)))); [reflexivity|].
      unfold stA. cbn [fds log_syscall with_fds].
      rewrite !fd_lookup_set.
      replace (Nat.eqb w n) with false by (symmetry; apply Nat.eqb_neq; auto).
      replace (Nat.eqb r n) with false by (symmetry; apply Nat.eqb_neq; auto).
      replace (Nat.eqb 2 n) with false by (symmetry; apply Nat.eqb_neq; auto).
      symmetry. exact Ln. }
    cbn [fds syscalls log_syscall with_fds].
    rewrite !fd_lookup_set, Nat.eqb_refl.
    replace (Nat.eqb n 2) with false by (symmetry; apply Nat.eqb_neq; auto).
    replace (Nat.eqb n r) with false by (symmetry; apply Nat.eqb_neq; auto).
    replace (Nat.eqb n w) with false by (symmetry; apply Nat.eqb_neq; auto).
    replace (Nat.eqb n old) with false by (symmetry; apply Nat.eqb_neq; auto).
    rewrite Asys. repeat split; auto.
    rewrite <- app_assoc. reflexivity.
Qed.

(** [setstripe] when the native call returns after writing to descriptor
    2: [readData] raises [TypeError] on the first piece it reads, and
    neither the release of the capture nor the test of the return code
    runs. *)
Lemma setstripe_noisy_run (h : host) (filename : pyval)
    (stripeobj : option stripeObj) (size offset count : Z) (st : os_state)
    (tgt : ofd) (raw : Z) (text : list Byte.byte) :
  fd_lookup (fds st) 2 = Some tgt ->
  llapi_file_open h (setstripe_args h filename stripeobj size offset count)
  = Returned raw text ->
  text <> [] ->
  (List.length text <= PIPE_CAPACITY)%nat ->
  (0 <= raw ->
   fd_lookup (fds (snd (captureStderr_init st))) (Z.to_nat raw) = None) ->
  exists message st',
    fst (captureStderr_init st) = Ok message
    /\ setstripe h filename stripeobj size offset count st
       = (Raise TypeError, st')
    /\ syscalls st'
       = syscalls st
         ++ [Sys_pipe (pipeout message) (pipein message);
             Sys_dup 2 (oldstderr message);
             Sys_dup2 (pipein message) 2;
             Sys_select (pipeout message);
             Sys_read (pipeout message) 1024]
    /\ fd_lookup (fds st') 2 = Some (PipeW (List.length (pipes st)))
    /\ fd_lookup (fds st') (pipeout message)
       = Some (PipeR (List.length (pipes st)))
    /\ fd_lookup (fds st') (pipein message)
       = Some (PipeW (List.length (pipes st)))
    /\ fd_lookup (fds st') (oldstderr message) = Some tgt
    /\ (0 <= raw ->
        fd_lookup (fds st') (Z.to_nat raw)
        = Some (LustreFile filename)).
Proof.
  intros H2 Hcall Htext Hfit Hfresh.
  destruct (capture_then_call h _ st tgt raw text H2 Hcall Hfit Hfresh)
    as (r & w & old & st1 & st2 & Hinit & Hrun & L2 & Lr & Lw & Lo & Hne
        & Hraw & Hpipes & Hsys & _ & _).
  set (message := {| pipeout := r; pipein := w; oldstderr := old;
                     contents := PyStr "" |}) in *.
  destruct text as [|b buf]; [congruence|].
  exists message. eexists.
  split; [rewrite Hinit; reflexivity|].
  split.
  { unfold setstripe. unfold bind at 1. rewrite Hinit.
    unfold bind at 1. rewrite Hrun.
    unfold bind at 1.
    rewrite (readData_str_raises message st2 (List.length (pipes st))
               "" b buf eq_refl Lr).
    - reflexivity.
    - rewrite Hpipes. apply nth_app_last. }
  cbn [fds syscalls log_syscall with_pipes pipeout pipein oldstderr message].
  rewrite Hsys, <- !app_assoc.
  repeat split; auto.
  intros Hge. destruct (Hraw Hge) as (Ln & _). rewrite Ln.
  unfold setstripe_args. destruct stripeobj; reflexivity.
Qed.

(** [setstripe] when the native call writes more than the pipe holds: the
    call does not return. *)
Lemma setstripe_blocked_run (h : host) (filename : pyval)
    (stripeobj : option stripeObj) (size offset count : Z) (st : os_state)
    (tgt : ofd) (raw : Z) (text : list Byte.byte) :
  fd_lookup (fds st) 2 = Some tgt ->
  llapi_file_open h (setstripe_args h filename stripeobj size offset count)
  = Returned raw text ->
  (PIPE_CAPACITY < List.length text)%nat ->
  exists message st',
    fst (captureStderr_init st) = Ok message
    /\ setstripe h filename stripeobj size offset count st
       = (Raise Blocked, st')
    /\ syscalls st'
       = syscalls st
         ++ [Sys_pipe (pipeout message) (pipein message);
             Sys_dup 2 (oldstderr message);
             Sys_dup2 (pipein message) 2]
    /\ fd_lookup (fds st') 2 = Some (PipeW (List.length (pipes st))).
Proof.
  intros H2 Hcall Hbig.
  destruct (captureStderr_init_run st tgt H2)
    as (r & w & old & st1 & Hinit & L2 & Lr & Lw & Lo & Hne & Hpipes & Hsys1).
  eexists. eexists.
  split; [rewrite Hinit; reflexivity|].
  split.
  { unfold setstripe. unfold bind at 1. rewrite Hinit.
    unfold bind at 1. unfold call_llapi_file_open. rewrite Hcall.
    unfold bind at 1.
    rewrite (native_write_captured st1 (pipes st) text L2 Hpipes).
    replace (List.length text <=? PIPE_CAPACITY)%nat with false
      by (symmetry; apply Nat.leb_gt; exact Hbig).
    reflexivity. }
  cbn [fds syscalls with_pipes pipeout pipein oldstderr].
  split; [exact Hsys1 | exact L2].
Qed.

(** [setstripe] when ctypes refuses the arguments: the capture is set up
    and nothing else runs. *)
Lemma setstripe_refused_run (h : host) (filename : pyval)
    (stripeobj : option stripeObj) (size offset count : Z) (st : os_state)
    (tgt : ofd) :
  fd_lookup (fds st) 2 = Some tgt ->
  llapi_file_open h (setstripe_args h filename stripeobj size offset count)
  = Refused ->
  exists message st',
    captureStderr_init st = (Ok message, st')
    /\ setstripe h filename stripeobj size offset count st
       = (Raise ArgumentError, st')
    /\ syscalls st'
       = syscalls st
         ++ [Sys_pipe (pipeout message) (pipein message);
             Sys_dup 2 (oldstderr message);
             Sys_dup2 (pipein message) 2]
    /\ fd_lookup (fds st') 2 = Some (PipeW (List.length (pipes st)))
    /\ fd_lookup (fds st') (pipeout message)
       = Some (PipeR (List.length (pipes st)))
    /\ fd_lookup (fds st') (pipein message)
       = Some (PipeW (List.length (pipes st)))
    /\ fd_lookup (fds st') (oldstderr message) = Some tgt.
Proof.
  intros H2 Hcall.
  destruct (captureStderr_init_run st tgt H2)
    as (r & w & old & st1 & Hinit & L2 & Lr & Lw & Lo & Hne & Hpipes & Hsys1).
  eexists. exists st1.
  split; [exact Hinit|]. split.
  { unfold setstripe. unfold bind at 1. rewrite Hinit.
    unfold bind at 1. unfold call_llapi_file_open. rewrite Hcall.
    reflexivity. }
  cbn [pipeout pipein oldstderr]. auto.
Qed.

(** The argument tuple of [setstripe] is refused by the declared
    [argtypes], whatever the native function is. *)
Lemma setstripe_args_refused (h h' : host)
    (native : list cval -> ffi_outcome (list Byte.byte)) (filename : pyval)
    (stripeobj : option stripeObj) (size offset count : Z) :
  ctypes_bind llapi_file_open_argtypes native
    (setstripe_args h' filename stripeobj size offset count)
  = Refused.
Proof.
  unfold setstripe_args, ctypes_bind, llapi_file_open_argtypes.
  destruct stripeobj; cbn [marshal];
    destruct (from_param c_char_p filename); reflexivity.
Qed.

(** ** Stripe object *)

(** C8: [isstriped] answers true exactly when the stripe count is greater
    than 1 or equal to -1, and false otherwise, in particular for a stripe
    count of 0. *)
Theorem isstriped_iff (self : stripeObj) :
  (isstriped self = true <-> stripecount self > 1 \/ stripecount self = -1)
  /\ (isstriped self = false
      <-> ~ (stripecount self > 1 \/ stripecount self = -1))
  /\ (stripecount self = 0 -> isstriped self = false).
Proof.
  unfold isstriped.
  destruct (Z.gtb_spec (stripecount self) 1) as [Hgt|Hle];
    destruct (Z.eqb_spec (stripecount self) (-1)) as [Heq|Hne];
    cbn [orb]; (split; [|split]);
    try (split; intros; try reflexivity; try discriminate; lia);
    intros; try reflexivity; lia.
Qed.

(** C10: a freshly constructed [stripeObj] has stripe count -1, stripe size
    0, stripe offset -1 and no placement entries, so [isstriped] answers
    true on it. *)
Theorem stripeObj_init_is_striped :
  stripecount stripeObj_init = -1
  /\ stripesize stripeObj_init = 0
  /\ stripeoffset stripeObj_init = -1
  /\ ostobjects stripeObj_init = []
  /\ isstriped stripeObj_init = true.
Proof. repeat split. Qed.

(** ** HSM state summary *)

Lemma string_app_assoc (a b c : string) :
  ((a ++ b) ++ c = a ++ (b ++ c))%string.
Proof.
  induction a as [|ch a IH]; simpl; [reflexivity | now rewrite IH].
Qed.

(** C9: the summary of a decoded HSM state is "No HSM state" exactly when
    the decoded flag list is empty or has a single flag; with more than one
    flag it is the archive id followed by the flag names. *)
Theorem HSM_state_str_summary (hus : hsm_user_state) (st : HSM_state) :
  HSM_state_init hus = Ok st ->
  (HSM_state_str st = "No HSM state"
   <-> (List.length (states st) = 0 \/ List.length (states st) = 1)%nat)
  /\ ((1 < List.length (states st))%nat ->
      HSM_state_str st
      = ("Archive id:" ++ fmt_i (archive_id st) ++ newline ++ "States: "
         ++ String.concat " " (states st))%string).
Proof.
  intros _. unfold HSM_state_str.
  destruct (Nat.ltb_spec 1 (List.length (states st))) as [Hlt|Hle].
  - split.
    + split; [|lia]. cbn [append]. discriminate.
    + intros _. rewrite !string_app_assoc. reflexivity.
  - split; [|lia]. split; [lia | reflexivity].
Qed.

(** ** getstripe *)

Lemma skipn_nth_error {A : Type} (l : list A) (k : nat) (a : A) :
  nth_error l k = Some a -> skipn k l = a :: skipn (S k) l.
Proof.
  revert l. induction k as [|k IH]; intros [|x l] H; simpl in H; try discriminate.
  - inversion H. reflexivity.
  - apply IH in H. exact H.
Qed.

Lemma getstripe_copy_firstn (objects : list lov_user_ost_data_v1) (n : nat) :
  forall k acc,
    (k + n <= List.length objects)%nat ->
    getstripe_copy (List.seq k n) objects acc
    = Ok (acc ++ firstn n (skipn k objects)).
Proof.
  induction n as [|n IH]; intros k acc Hlen.
  - simpl. now rewrite app_nil_r.
  - cbn [List.seq getstripe_copy]. unfold array_get.
    destruct (nth_error objects k) as [a|] eqn:Hk.
    + cbn [rbind]. rewrite IH by lia.
      rewrite (skipn_nth_error _ _ _ Hk). cbn [firstn].
      rewrite <- app_assoc. reflexivity.
    + apply nth_error_None in Hk. lia.
Qed.

Lemma getstripe_copy_past_end (objects : list lov_user_ost_data_v1) (n : nat) :
  forall k acc,
    (k <= List.length objects < k + n)%nat ->
    getstripe_copy (List.seq k n) objects acc = Raise IndexError.
Proof.
  induction n as [|n IH]; intros k acc Hlen; [lia|].
  cbn [List.seq getstripe_copy]. unfold array_get.
  destruct (nth_error objects k) as [a|] eqn:Hk; [|reflexivity].
  cbn [rbind]. apply IH.
  assert (k < List.length objects)%nat
    by (apply nth_error_Some; congruence).
  lia.
Qed.

(** C4: when the native call returns -61, [getstripe] does not fail and
    returns a layout with stripe count 0, stripe size 0, stripe offset -1
    and no placements; for every other negative return code [err] it
    raises [IOError(-err, os.strerror(-err))]. *)
Theorem getstripe_negative_codes (h : host) (filename : pyval) (err : Z)
    (lov : lov_user_md_v1) :
  llapi_file_get_stripe h [filename] lov_user_md_v1_new = Returned err lov ->
  err < 0 ->
  (err = -61 ->
   exists obj,
     getstripe h filename = Ok obj
     /\ stripecount obj = 0 /\ stripesize obj = 0
     /\ stripeoffset obj = -1 /\ ostobjects obj = [])
  /\ (err <> -61 ->
      getstripe h filename = Raise (IOError (- err) (strerror h (- err)))).
Proof.
  intros Hcall Hneg. unfold getstripe. rewrite Hcall. split.
  - intros ->. cbn. eexists. repeat split.
  - intros Hne.
    destruct (Z.ltb_spec err 0) as [_|]; [|lia].
    destruct (Z.eqb_spec err (-61)) as [|_]; [contradiction|].
    cbn [andb negb]. reflexivity.
Qed.

(** C5 (amended): for every successful native result whose stripe count
    does not exceed the 2000 entries of the buffer, [getstripe] copies
    exactly the first [max(stripe_count, 0)] native placement entries, in
    order (exactly [stripe_count] of them when the count is not negative,
    none when it is), and the stripe offset of the returned layout is the
    target index of the first placement when there is one and -1 when there
    is none. *)
Theorem getstripe_copies_placements (h : host) (filename : pyval) (err : Z)
    (lov : lov_user_md_v1) :
  llapi_file_get_stripe h [filename] lov_user_md_v1_new = Returned err lov ->
  0 <= err ->
  List.length (lmm_objects lov) = LMM_OBJECTS_LEN ->
  lmm_stripe_count lov <= 2000 ->
  exists obj,
    getstripe h filename = Ok obj
    /\ ostobjects obj
       = firstn (Z.to_nat (lmm_stripe_count lov)) (lmm_objects lov)
    /\ Z.of_nat (List.length (ostobjects obj))
       = Z.max 0 (lmm_stripe_count lov)
    /\ stripecount obj = lmm_stripe_count lov
    /\ stripesize obj = lmm_stripe_size lov
    /\ (forall o rest, ostobjects obj = o :: rest ->
                       stripeoffset obj = l_ost_idx o)
    /\ (ostobjects obj = [] -> stripeoffset obj = -1).
Proof.
  intros Hcall Hok Hlen Hcount. unfold getstripe. rewrite Hcall.
  destruct (Z.ltb_spec err 0) as [|_]; [lia|].
  destruct (Z.eqb_spec err (-61)) as [|_]; [lia|].
  cbn [andb]. unfold range0.
  rewrite getstripe_copy_firstn
    by (rewrite Hlen; unfold LMM_OBJECTS_LEN; lia).
  cbn [rbind skipn app ostobjects stripeObj_init].
  eexists. split; [reflexivity|].
  cbn [ostobjects stripecount stripesize stripeoffset].
  split; [reflexivity|]. split.
  { rewrite length_firstn, Hlen. unfold LMM_OBJECTS_LEN. lia. }
  split; [reflexivity|]. split; [reflexivity|]. split.
  - intros o rest Ho. rewrite Ho. reflexivity.
  - intros Ho. rewrite Ho. reflexivity.
Qed.

Lemma getstripe_count_past_buffer (h : host) (filename : pyval) (err : Z)
    (lov : lov_user_md_v1) :
  llapi_file_get_stripe h [filename] lov_user_md_v1_new = Returned err lov ->
  0 <= err ->
  List.length (lmm_objects lov) = LMM_OBJECTS_LEN ->
  2000 < lmm_stripe_count lov ->
  getstripe h filename = Raise IndexError.
Proof.
  intros Hcall Hok Hlen Hcount. unfold getstripe. rewrite Hcall.
  destruct (Z.ltb_spec err 0) as [|_]; [lia|].
  destruct (Z.eqb_spec err (-61)) as [|_]; [lia|].
  cbn [andb]. unfold range0.
  rewrite getstripe_copy_past_end; [reflexivity|].
  rewrite Hlen. unfold LMM_OBJECTS_LEN. lia.
Qed.

(** ** Return codes of the native calls *)

(** C6: [path2fid], [get_hsm_state] and [set_hsm_state] translate every
    return code [raw] of their native call: a negative [raw] raises
    [IOError(-raw, os.strerror(-raw))], any other one succeeds.
    [setstripe] does not.  Bound with the declared [argtypes] its call is
    refused, so no return code ever reaches the translation.  Where a call
    is let through and returns [raw], the code is translated and the
    descriptor closed only when the native code wrote nothing to
    descriptor 2; when it wrote something, [TypeError] is raised whatever
    [raw] is, and a descriptor it returned stays open. *)
Theorem native_return_code_translation (h : host)
    (native : list cval -> ffi_outcome (list Byte.byte)) (raw : Z)
    (filename : string) (lufid : lu_fid) (hus : hsm_user_state)
    (setmask clearmask : list string) (s c archive : Z)
    (path : pyval) (stripeobj : option stripeObj) (size offset count : Z)
    (text : list Byte.byte) (st : os_state) (tgt : ofd) :
  (llapi_path2fid h [PyBytes filename] {| f_seq := 0; f_oid := 0; f_ver := 0 |}
   = Returned raw lufid ->
   path2fid h filename
   = translated h raw (Fid_init (f_seq lufid) (f_oid lufid) (f_ver lufid)))
  /\ (llapi_hsm_state_get h [PyBytes filename]
        {| hus_states := 0; hus_archive_id := 0 |}
      = Returned raw hus ->
      get_hsm_state h filename
      = translated h raw
          {| archive_id := hus_archive_id hus;
             states := flags_of_mask (hus_states hus) flag_values |})
  /\ (hsm_state_from_flags setmask = Ok s ->
      hsm_state_from_flags clearmask = Ok c ->
      llapi_hsm_state_set h [PyBytes filename; PyInt s; PyInt c; PyInt archive]
      = Returned raw tt ->
      fst (set_hsm_state h filename setmask clearmask archive st)
      = translated h raw tt)
  /\ (fd_lookup (fds st) 2 = Some tgt ->
      fst (setstripe (bind_file_open h native)
             path stripeobj size offset count st)
      = Raise ArgumentError
      /\ (llapi_file_open h (setstripe_args h path stripeobj size offset count)
          = Returned raw text ->
          (0 <= raw ->
           fd_lookup (fds (snd (captureStderr_init st))) (Z.to_nat raw)
           = None) ->
          (text = [] ->
           fst (setstripe h path stripeobj size offset count st)
           = translated h raw 0
           /\ (0 <= raw ->
               (exists before,
                   syscalls
                     (snd (setstripe h path stripeobj size offset count st))
                   = before ++ [Sys_close (Z.to_nat raw)])
               /\ fd_lookup
                    (fds (snd (setstripe h path stripeobj size offset count
                                 st)))
                    (Z.to_nat raw) = None))
          /\ (text <> [] ->
              (List.length text <= PIPE_CAPACITY)%nat ->
              exists message,
                fst (captureStderr_init st) = Ok message
                /\ fst (setstripe h path stripeobj size offset count st)
                   = Raise TypeError
                /\ syscalls
                     (snd (setstripe h path stripeobj size offset count st))
                   = syscalls st ++ acquire_calls message
                     ++ [Sys_select (pipeout message);
                         Sys_read (pipeout message) 1024]
                /\ (0 <= raw ->
                    fd_lookup
                      (fds (snd (setstripe h path stripeobj size offset
                                   count st)))
                      (Z.to_nat raw) = Some (LustreFile path))))).
Proof.
  split; [|split; [|split]].
  - intros Hfid. unfold path2fid, translated. rewrite Hfid.
    replace (0 - raw) with (- raw) by lia. reflexivity.
  - intros Hget. unfold get_hsm_state, translated.
    rewrite Hget, HSM_state_init_flags.
    replace (0 - raw) with (- raw) by lia. reflexivity.
  - intros Hs Hc Hset. unfold set_hsm_state, bind, lift, translated.
    rewrite Hs, Hc. cbn [print fst snd]. rewrite Hset.
    replace (0 - raw) with (- raw) by lia.
    destruct (raw <? 0); reflexivity.
  - intros H2. split.
    + destruct (setstripe_refused_run (bind_file_open h native) path stripeobj
                  size offset count st tgt H2)
        as (message & st' & _ & Hrun & _).
      { apply (setstripe_args_refused h). }
      rewrite Hrun. reflexivity.
    + intros Hopen Hfresh. split.
      * intros ->.
        destruct (setstripe_silent_run h path stripeobj size offset count st
                    tgt raw H2 Hopen Hfresh)
          as (message & st' & _ & Hrun & Hsys & _ & _ & _ & _ & Hraw).
        rewrite Hrun. cbn [fst snd]. unfold translated.
        replace (0 - raw) with (- raw) by lia.
        split; [reflexivity|]. intros Hge. split; [|exact (Hraw Hge)].
        rewrite Hsys. destruct (Z.ltb_spec raw 0); [lia|].
        eexists. rewrite app_assoc. reflexivity.
      * intros Htext Hfit.
        destruct (setstripe_noisy_run h path stripeobj size offset count st
                    tgt raw text H2 Hopen Htext Hfit Hfresh)
          as (message & st' & Hm & Hrun & Hsys & _ & _ & _ & _ & Hraw).
        exists message. rewrite Hrun. cbn [fst snd].
        split; [exact Hm|]. split; [reflexivity|].
        split; [exact Hsys | exact Hraw].
Qed.

(** ** Release of the diagnostic capture *)

(** C7: the release of the capture ([dup2] of the saved descriptor onto 2,
    [close] of the read end, [close] of the write end) runs, once, only
    when the native call returns without having written to descriptor 2.
    Bound with the declared [argtypes] the call is refused; and once
    native code has written to descriptor 2, [readData] raises
    [TypeError].  Either way [setstripe] raises with descriptor 2 still on
    the write end of the pipe and no release issued.  A native call that
    writes more than the pipe holds does not return. *)
Theorem setstripe_capture_release (h : host)
    (native : list cval -> ffi_outcome (list Byte.byte)) (path : pyval)
    (stripeobj : option stripeObj) (size offset count : Z) (st : os_state)
    (tgt : ofd) :
  fd_lookup (fds st) 2 = Some tgt ->
  exists message,
    fst (captureStderr_init st) = Ok message
    /\ fst (setstripe (bind_file_open h native)
              path stripeobj size offset count st)
       = Raise ArgumentError
    /\ syscalls (snd (setstripe (bind_file_open h native)
                        path stripeobj size offset count st))
       = syscalls st ++ acquire_calls message
    /\ fd_lookup (fds (snd (setstripe (bind_file_open h native)
                              path stripeobj size offset count st))) 2
       = Some (PipeW (List.length (pipes st)))
    /\ forall raw text,
         llapi_file_open h (setstripe_args h path stripeobj size offset count)
         = Returned raw text ->
         (0 <= raw ->
          fd_lookup (fds (snd (captureStderr_init st))) (Z.to_nat raw)
          = None) ->
         (text = [] ->
          fst (setstripe h path stripeobj size offset count st)
          = translated h raw 0
          /\ syscalls (snd (setstripe h path stripeobj size offset count st))
             = syscalls st ++ acquire_calls message
               ++ [Sys_select (pipeout message)]
               ++ release_calls message
               ++ (if raw <? 0 then [] else [Sys_close (Z.to_nat raw)])
          /\ fd_lookup
               (fds (snd (setstripe h path stripeobj size offset count st))) 2
             = Some tgt)
         /\ (text <> [] ->
             (List.length text <= PIPE_CAPACITY)%nat ->
             fst (setstripe h path stripeobj size offset count st)
             = Raise TypeError
             /\ syscalls
                  (snd (setstripe h path stripeobj size offset count st))
                = syscalls st ++ acquire_calls message
                  ++ [Sys_select (pipeout message);
                      Sys_read (pipeout message) 1024]
             /\ fd_lookup
                  (fds (snd (setstripe h path stripeobj size offset count
                               st))) 2
                = Some (PipeW (List.length (pipes st))))
         /\ ((PIPE_CAPACITY < List.length text)%nat ->
             fst (setstripe h path stripeobj size offset count st)
             = Raise Blocked
             /\ syscalls
                  (snd (setstripe h path stripeobj size offset count st))
                = syscalls st ++ acquire_calls message
             /\ fd_lookup
                  (fds (snd (setstripe h path stripeobj size offset count
                               st))) 2
                = Some (PipeW (List.length (pipes st)))).
Proof.
  intros H2.
  destruct (setstripe_refused_run (bind_file_open h native) path stripeobj
              size offset count st tgt H2)
    as (message & st0 & Hinit & Hrun0 & Hsys0 & L0 & _).
  { apply (setstripe_args_refused h). }
  assert (Hm : fst (captureStderr_init st) = Ok message)
    by (rewrite Hinit; reflexivity).
  assert (Hsame : forall m, fst (captureStderr_init st) = Ok m -> m = message).
  { intros m E. rewrite Hm in E. congruence. }
  exists message. rewrite Hrun0. cbn [fst snd].
  split; [exact Hm|]. split; [reflexivity|].
  split; [exact Hsys0|]. split; [exact L0|].
  intros raw text Hopen Hfresh.
  split; [|split].
  - intros ->.
    destruct (setstripe_silent_run h path stripeobj size offset count st
                tgt raw H2 Hopen Hfresh)
      as (m & st' & Em & Hrun & Hsys & L2 & _).
    apply Hsame in Em. subst m.
    rewrite Hrun. cbn [fst snd]. unfold translated.
    replace (0 - raw) with (- raw) by lia.
    split; [reflexivity|]. split; [exact Hsys | exact L2].
  - intros Htext Hfit.
    destruct (setstripe_noisy_run h path stripeobj size offset count st
                tgt raw text H2 Hopen Htext Hfit Hfresh)
      as (m & st' & Em & Hrun & Hsys & L2 & _).
    apply Hsame in Em. subst m.
    rewrite Hrun. cbn [fst snd].
    split; [reflexivity|]. split; [exact Hsys | exact L2].
  - intros Hbig.
    destruct (setstripe_blocked_run h path stripeobj size offset count st
                tgt raw text H2 Hopen Hbig)
      as (m & st' & Em & Hrun & Hsys & L2).
    apply Hsame in Em. subst m.
    rewrite Hrun. cbn [fst snd].
    split; [reflexivity|]. split; [exact Hsys | exact L2].
Qed.


(** ** The flag codec, the summary and the stripe predicate on concrete inputs *)

(** C3, as stated, fails: a repeated name is added once per occurrence, so
    [EXISTS] given twice encodes to 2 (the bit of [DIRTY]), not to 1. *)
Lemma hsm_state_from_flags_repeated_name :
  hsm_state_from_flags ["EXISTS"; "EXISTS"] = Ok 2
  /\ hsm_state_from_flags ["EXISTS"] = Ok 1
  /\ ~ sums_each_flag_once ["EXISTS"; "EXISTS"].
Proof.
  repeat split; try reflexivity.
  unfold sums_each_flag_once. vm_compute. discriminate.
Qed.

Lemma hsm_state_from_flags_counts_occurrences_witness :
  sums_each_flag_once ["LOST"; "EXISTS"]
  /\ hsm_state_from_flags ["LOST"; "nope"; "EXISTS"]
     = hsm_state_from_flags ["LOST"; "EXISTS"].
Proof.
  split.
  - destruct (hsm_state_from_flags_counts_occurrences ["LOST"; "EXISTS"])
      as (_ & _ & Honce).
    apply Honce. repeat constructor; simpl; intuition discriminate.
  - destruct (hsm_state_from_flags_counts_occurrences
                ["LOST"; "nope"; "EXISTS"]) as (_ & Hfilter & _).
    symmetry. exact Hfilter.
Defined.

(** C1, as stated, fails in both directions: [NONE] has bit value 0 and is
    never decoded, and a mask bit outside the flag table is dropped. *)
Lemma flag_codec_roundtrip_fails :
  (NoDup ["NONE"] /\ incl ["NONE"] flag_names
   /\ ~ decode_encode_roundtrips ["NONE"] 1)
  /\ (0 <= 128 < 2 ^ 32 /\ ~ encode_decode_roundtrips 128 1).
Proof.
  split; [split; [|split] | split].
  - repeat constructor; simpl; tauto.
  - intros x [<-|[]]. simpl. tauto.
  - intros (m & st & Hm & Hst & Hx).
    assert (m = 0) by (vm_compute in Hm; congruence). subst m.
    assert (states st = []) by (vm_compute in Hst; inversion Hst; reflexivity).
    destruct (Hx "NONE") as [_ Hin]. rewrite H in Hin.
    apply Hin. simpl. tauto.
  - lia.
  - intros (st & Hst & Hm).
    assert (Hs : states st = [])
      by (vm_compute in Hst; inversion Hst; reflexivity).
    rewrite Hs in Hm. vm_compute in Hm. discriminate.
Qed.

Lemma flag_codec_roundtrip_witness :
  (exists m st,
      hsm_state_from_flags ["LOST"; "EXISTS"] = Ok m
      /\ HSM_state_init {| hus_states := m; hus_archive_id := 7 |} = Ok st
      /\ (forall x, In x (states st)
                    <-> In x ["LOST"; "EXISTS"] /\ x <> "NONE"))
  /\ (~ In "NONE" ["LOST"; "EXISTS"] ->
      decode_encode_roundtrips ["LOST"; "EXISTS"] 7)
  /\ (exists st,
         HSM_state_init {| hus_states := 66; hus_archive_id := 7 |} = Ok st
         /\ hsm_state_from_flags (states st) = Ok (Z.land 66 127))
  /\ (66 <= 127 -> encode_decode_roundtrips 66 7).
Proof.
  apply (flag_codec_roundtrip ["LOST"; "EXISTS"] 66 7).
  - repeat constructor; simpl; intuition discriminate.
  - intros x [<-|[<-|[]]]; simpl; tauto.
  - lia.
Defined.

Lemma isstriped_iff_witness :
  isstriped {| lovdata := lov_user_md_v1_new; stripecount := 0;
               stripesize := 0; stripeoffset := -1; ostobjects := [] |}
  = false.
Proof.
  apply (isstriped_iff
           {| lovdata := lov_user_md_v1_new; stripecount := 0;
              stripesize := 0; stripeoffset := -1; ostobjects := [] |}).
  reflexivity.
Defined.

Lemma HSM_state_str_summary_witness :
  (HSM_state_str {| archive_id := 5; states := ["EXISTS"; "ARCHIVED"] |}
   = "No HSM state"
   <-> (List.length ["EXISTS"; "ARCHIVED"] = 0
        \/ List.length ["EXISTS"; "ARCHIVED"] = 1)%nat)
  /\ ((1 < List.length ["EXISTS"; "ARCHIVED"])%nat ->
      HSM_state_str {| archive_id := 5; states := ["EXISTS"; "ARCHIVED"] |}
      = ("Archive id:" ++ fmt_i 5 ++ newline ++ "States: "
         ++ String.concat " " ["EXISTS"; "ARCHIVED"])%string).
Proof.
  apply (HSM_state_str_summary {| hus_states := 9; hus_archive_id := 5 |}
           {| archive_id := 5; states := ["EXISTS"; "ARCHIVED"] |}).
  reflexivity.
Defined.

(** ** setstripe and the creation mode *)

(** C2: the stripe pattern handed to [llapi_file_open] is 0, but the mode
    is the string ['0700'], not the integer 0o700 (448): the [c_int]
    declared for that argument refuses it, so a call bound with the
    declared [argtypes] raises [ArgumentError] before native code runs. *)
Theorem setstripe_mode_is_a_string (h : host)
    (native : list cval -> ffi_outcome (list Byte.byte))
    (path : pyval) (stripeobj : option stripeObj) (size offset count : Z)
    (st : os_state) (tgt : ofd) :
  fd_lookup (fds st) 2 = Some tgt ->
  nth_error (setstripe_args h path stripeobj size offset count) 6
  = Some (PyInt 0)
  /\ nth_error (setstripe_args h path stripeobj size offset count) 2
     = Some (PyStr "0700")
  /\ nth_error (setstripe_args h path stripeobj size offset count) 2
     <> Some (PyInt 448)
  /\ nth_error llapi_file_open_argtypes 2 = Some c_int
  /\ from_param c_int (PyStr "0700") = None
  /\ ctypes_bind llapi_file_open_argtypes native
       (setstripe_args h path stripeobj size offset count)
     = Refused
  /\ fst (setstripe (bind_file_open h native)
            path stripeobj size offset count st)
     = Raise ArgumentError.
Proof.
  intros H2.
  assert (Hargs : forall h', O_CREAT h' = O_CREAT h ->
             setstripe_args h' path stripeobj size offset count
             = [path; PyInt (O_CREAT h); PyStr "0700";
                PyInt (match stripeobj with
                       | Some o => stripesize o | None => size end);
                PyInt (match stripeobj with
                       | Some o => stripeoffset o | None => offset end);
                PyInt (match stripeobj with
                       | Some o => stripecount o | None => count end);
                PyInt 0]).
  { intros h' Hh. unfold setstripe_args. rewrite Hh.
    destruct stripeobj; reflexivity. }
  assert (Href : forall h', O_CREAT h' = O_CREAT h ->
             ctypes_bind llapi_file_open_argtypes native
               (setstripe_args h' path stripeobj size offset count)
             = Refused).
  { intros h' Hh. rewrite (Hargs h' Hh).
    unfold ctypes_bind, llapi_file_open_argtypes.
    cbn [marshal]. destruct (from_param c_char_p path); reflexivity. }
  rewrite !(Hargs h eq_refl). cbn [nth_error].
  split; [reflexivity|]. split; [reflexivity|]. split; [discriminate|].
  split; [reflexivity|]. split; [reflexivity|].
  split; [rewrite <- (Hargs h eq_refl); apply Href; reflexivity|].
  destruct (captureStderr_init_run st tgt H2)
    as (r & w & old & st1 & Hinit & _).
  unfold setstripe, bind. rewrite Hinit.
  unfold call_llapi_file_open. cbn [llapi_file_open bind_file_open].
  rewrite Href by reflexivity. reflexivity.
Qed.

Lemma setstripe_mode_is_a_string_witness :
  fst (setstripe (bind_file_open (sample_host 6 (sample_lov 0))
                    (fun _ => Returned 6 []))
         (PyBytes "/lustre/testfile") None 0 (-1) 1 sample_process)
  = Raise ArgumentError.
Proof.
  apply (setstripe_mode_is_a_string (sample_host 6 (sample_lov 0))
           (fun _ => Returned 6 []) (PyBytes "/lustre/testfile") None
           0 (-1) 1 sample_process (Stream 2)).
  reflexivity.
Defined.

(** ** getstripe on concrete native answers *)

Lemma getstripe_negative_codes_witness :
  (exists obj,
      getstripe (sample_host (-61) (sample_lov 0)) (PyBytes "/lustre/dir")
      = Ok obj
      /\ stripecount obj = 0 /\ stripesize obj = 0
      /\ stripeoffset obj = -1 /\ ostobjects obj = [])
  /\ getstripe (sample_host (-2) (sample_lov 0)) (PyBytes "/lustre/missing")
     = Raise (IOError 2 "No such file or directory").
Proof.
  split.
  - apply (getstripe_negative_codes (sample_host (-61) (sample_lov 0))
             (PyBytes "/lustre/dir") (-61) (sample_lov 0));
      [reflexivity | lia | reflexivity].
  - apply (getstripe_negative_codes (sample_host (-2) (sample_lov 0))
             (PyBytes "/lustre/missing") (-2) (sample_lov 0));
      [reflexivity | lia | lia].
Defined.

Lemma getstripe_copies_placements_witness :
  exists obj,
    getstripe (sample_host 0 (sample_lov 2)) (PyBytes "/lustre/file") = Ok obj
    /\ ostobjects obj = [sample_ost 7; sample_ost 3]
    /\ stripeoffset obj = 7.
Proof.
  destruct (getstripe_copies_placements (sample_host 0 (sample_lov 2))
              (PyBytes "/lustre/file") 0 (sample_lov 2)
              eq_refl ltac:(lia) eq_refl ltac:(simpl; lia))
    as (obj & Hobj & Hobjs & _ & _ & _ & Hoff & _).
  exists obj. split; [exact Hobj|]. split; [exact Hobjs|].
  apply (Hoff (sample_ost 7) [sample_ost 3]). exact Hobjs.
Defined.

(** C5, as stated, fails: a native stripe count of -1 (a layout that asks
    for all targets) copies no entry, so the placements list does not have
    "stripe count" entries; and a count past the 2000 entries of the buffer
    raises [IndexError]. *)
Lemma getstripe_count_not_copied :
  (exists obj,
      getstripe (sample_host 0 (sample_lov (-1))) (PyBytes "/lustre/dir")
      = Ok obj
      /\ ostobjects obj = [] /\ stripecount obj = -1)
  /\ ~ copies_reported_count (sample_host 0 (sample_lov (-1)))
         (PyBytes "/lustre/dir")
  /\ getstripe (sample_host 0 (sample_lov 2001)) (PyBytes "/lustre/file")
     = Raise IndexError
  /\ ~ copies_reported_count (sample_host 0 (sample_lov 2001))
         (PyBytes "/lustre/file").
Proof.
  assert (Hbig : getstripe (sample_host 0 (sample_lov 2001))
                   (PyBytes "/lustre/file") = Raise IndexError).
  { apply (getstripe_count_past_buffer (sample_host 0 (sample_lov 2001))
             (PyBytes "/lustre/file") 0 (sample_lov 2001));
      [reflexivity | lia | reflexivity | simpl; lia]. }
  split; [|split; [|split]].
  - eexists. split; [reflexivity|]. split; reflexivity.
  - intros H.
    destruct (H 0 (sample_lov (-1)) eq_refl ltac:(lia))
      as (obj & _ & Hlen & _).
    simpl in Hlen. lia.
  - exact Hbig.
  - intros H.
    destruct (H 0 (sample_lov 2001) eq_refl ltac:(lia)) as (obj & Hobj & _).
    rewrite Hbig in Hobj. discriminate.
Qed.

(** ** The wrappers on concrete native answers *)

Lemma native_return_code_translation_witness :
  path2fid (sample_host (-2) (sample_lov 0)) "/lustre/f"
  = Raise (IOError 2 "No such file or directory")
  /\ path2fid (sample_host 6 (sample_lov 0)) "/lustre/f"
     = Ok (Fid_init 0x100 5 1)
  /\ fst (setstripe (bind_file_open (sample_host (-2) (sample_lov 0))
                       (fun _ => Returned (-2) [Byte.x77; Byte.x0a]))
            (PyBytes "/lustre/f") None 0 (-1) 1 sample_process)
     = Raise ArgumentError
  /\ fst (setstripe (sample_host (-2) (sample_lov 0))
            (PyBytes "/lustre/f") None 0 (-1) 1 sample_process)
     = Raise TypeError
  /\ fd_lookup
       (fds (snd (setstripe (sample_host 6 (sample_lov 0))
                    (PyBytes "/lustre/f") None 0 (-1) 1 sample_process))) 6
     = Some (LustreFile (PyBytes "/lustre/f"))
  /\ fst (setstripe (silent_host 6)
            (PyBytes "/lustre/f") None 0 (-1) 1 sample_process)
     = Ok 0.
Proof.
  destruct (native_return_code_translation (sample_host (-2) (sample_lov 0))
              (fun _ => Returned (-2) [Byte.x77; Byte.x0a])
              (-2) "/lustre/f"
              {| f_seq := 0x100; f_oid := 5; f_ver := 1 |}
              {| hus_states := 9; hus_archive_id := 2 |}
              ["EXISTS"] ["DIRTY"] 1 2 3
              (PyBytes "/lustre/f") None 0 (-1) 1
              [Byte.x77; Byte.x0a] sample_process (Stream 2))
    as (Hfid & _ & _ & Hstripe).
  destruct (Hstripe eq_refl) as (Hrefused & Hreturned).
  destruct (Hreturned eq_refl ltac:(intros; lia)) as (_ & Hnoisy).
  destruct (Hnoisy ltac:(discriminate)
                   ltac:(cbn [List.length]; unfold PIPE_CAPACITY; lia))
    as (message & _ & Htype & _).
  destruct (native_return_code_translation (sample_host 6 (sample_lov 0))
              (fun _ => Returned 6 [Byte.x77; Byte.x0a])
              6 "/lustre/f"
              {| f_seq := 0x100; f_oid := 5; f_ver := 1 |}
              {| hus_states := 9; hus_archive_id := 2 |}
              ["EXISTS"] ["DIRTY"] 1 2 3
              (PyBytes "/lustre/f") None 0 (-1) 1
              [Byte.x77; Byte.x0a] sample_process (Stream 2))
    as (Hfid6 & _ & _ & Hstripe6).
  destruct (Hstripe6 eq_refl) as (_ & Hreturned6).
  destruct (Hreturned6 eq_refl ltac:(intros; reflexivity)) as (_ & Hnoisy6).
  destruct (Hnoisy6 ltac:(discriminate)
                    ltac:(cbn [List.length]; unfold PIPE_CAPACITY; lia))
    as (message6 & _ & _ & _ & Hopen6).
  destruct (native_return_code_translation (silent_host 6)
              (fun _ => Returned 6 [])
              6 "/lustre/f"
              {| f_seq := 0x100; f_oid := 5; f_ver := 1 |}
              {| hus_states := 9; hus_archive_id := 2 |}
              ["EXISTS"] ["DIRTY"] 1 2 3
              (PyBytes "/lustre/f") None 0 (-1) 1
              [] sample_process (Stream 2))
    as (_ & _ & _ & Hstripe0).
  destruct (Hstripe0 eq_refl) as (_ & Hreturned0).
  destruct (Hreturned0 eq_refl ltac:(intros; reflexivity)) as (Hsilent & _).
  destruct (Hsilent eq_refl) as (Hok & _).
  split; [exact (Hfid eq_refl)|].
  split; [exact (Hfid6 eq_refl)|].
  split; [exact Hrefused|].
  split; [exact Htype|].
  split; [exact (Hopen6 ltac:(lia)) | exact Hok].
Defined.

Lemma setstripe_capture_release_witness :
  fd_lookup
    (fds (snd (setstripe
                 (bind_file_open (sample_host (-2) (sample_lov 0))
                    (fun _ => Returned (-2) [Byte.x77; Byte.x0a]))
                 (PyBytes "/lustre/f") None 0 (-1) 1 sample_process))) 2
  = Some (PipeW 0)
  /\ fd_lookup
       (fds (snd (setstripe (sample_host (-2) (sample_lov 0))
                    (PyBytes "/lustre/f") None 0 (-1) 1 sample_process))) 2
     = Some (PipeW 0)
  /\ fd_lookup
       (fds (snd (setstripe (silent_host 6)
                    (PyBytes "/lustre/f") None 0 (-1) 1 sample_process))) 2
     = Some (Stream 2).
Proof.
  destruct (setstripe_capture_release (sample_host (-2) (sample_lov 0))
              (fun _ => Returned (-2) [Byte.x77; Byte.x0a])
              (PyBytes "/lustre/f") None 0 (-1) 1
              sample_process (Stream 2) eq_refl)
    as (message & _ & _ & _ & Hrefused & Hreturned).
  destruct (Hreturned (-2) [Byte.x77; Byte.x0a] eq_refl ltac:(intros; lia))
    as (_ & Hnoisy & _).
  destruct (Hnoisy ltac:(discriminate)
                   ltac:(cbn [List.length]; unfold PIPE_CAPACITY; lia))
    as (_ & _ & Hpipe).
  destruct (setstripe_capture_release (silent_host 6)
              (fun _ => Returned 6 [])
              (PyBytes "/lustre/f") None 0 (-1) 1
              sample_process (Stream 2) eq_refl)
    as (message0 & _ & _ & _ & _ & Hreturned0).
  destruct (Hreturned0 6 [] eq_refl ltac:(intros; reflexivity))
    as (Hsilent & _).
  destruct (Hsilent eq_refl) as (_ & _ & Hback).
  split; [exact Hrefused|]. split; [exact Hpipe | exact Hback].
Defined.

Example setstripe_sample_trace :
  setstripe (sample_host 6 (sample_lov 0))
    (PyBytes "/lustre/f") None 0 (-1) 1 sample_process
  = (Raise TypeError,
     {| fds := [Some (Stream 0); Some (Stream 1); Some (PipeW 0);
                Some (PipeR 0); Some (PipeW 0); Some (Stream 2);
                Some (LustreFile (PyBytes "/lustre/f"))];
        pipes := [[]]; written := []; stdout := [];
        syscalls := [Sys_pipe 3 4; Sys_dup 2 5; Sys_dup2 4 2; Sys_select 3;
                     Sys_read 3 1024] |}).
Proof. reflexivity. Qed.

Example setstripe_silent_trace :
  syscalls (snd (setstripe (silent_host 6)
                   (PyBytes "/lustre/f") None 0 (-1) 1 sample_process))
  = [Sys_pipe 3 4; Sys_dup 2 5; Sys_dup2 4 2; Sys_select 3;
     Sys_dup2 5 2; Sys_close 3; Sys_close 4; Sys_close 6].
Proof. reflexivity. Qed.

(** ** Small runs of the codec and of the summary *)

Example int16_norelease : int16 "0x00000010" = Ok 16.
Proof. reflexivity. Qed.

Example int16_rejects_empty : int16 "0x" = Raise ValueError.
Proof. reflexivity. Qed.

Example encode_archived_exists :
  hsm_state_from_flags ["ARCHIVED"; "bogus"; "EXISTS"] = Ok 9.
Proof. reflexivity. Qed.

Example decode_9 :
  HSM_state_init {| hus_states := 9; hus_archive_id := 2 |}
  = Ok {| archive_id := 2; states := ["EXISTS"; "ARCHIVED"] |}.
Proof. reflexivity. Qed.

Example str_two_flags :
  HSM_state_str {| archive_id := 2; states := ["EXISTS"; "ARCHIVED"] |}
  = ("Archive id:2" ++ newline ++ "States: EXISTS ARCHIVED")%string.
Proof. reflexivity. Qed.

Example str_one_flag :
  HSM_state_str {| archive_id := 2; states := ["EXISTS"] |} = "No HSM state".
Proof. reflexivity. Qed.

Example captured_text :
  fst (bind captureStderr_init
         (fun m => bind (call_llapi_file_open (sample_host (-2) (sample_lov 0)) [])
                     (fun _ => bind (readData m) (fun m => ret (contents m))))
         sample_process)
  = Raise TypeError.
Proof. reflexivity. Qed.

(** * Further properties of the code *)

(** ** hsm_state_from_flags: composition and bounds *)

Lemma occ_app (name : string) (a b : list string) :
  occ name (a ++ b) = occ name a + occ name b.
Proof. unfold occ. rewrite count_occ_app. lia. Qed.

(** X1: the mask of the empty input is 0 and the mask of a concatenation
    is the sum of the masks of its parts, so giving the same flags twice
    doubles the mask. *)
Theorem hsm_state_from_flags_app (a b : list string) :
  hsm_state_from_flags [] = Ok 0
  /\ exists ma mb,
       hsm_state_from_flags a = Ok ma
       /\ hsm_state_from_flags b = Ok mb
       /\ hsm_state_from_flags (a ++ b) = Ok (ma + mb)
       /\ hsm_state_from_flags (a ++ a) = Ok (2 * ma).
Proof.
  split; [reflexivity|].
  exists (weighted_occ flag_values a), (weighted_occ flag_values b).
  rewrite !hsm_state_from_flags_weighted.
  repeat split; f_equal; unfold flag_values; cbn [weighted_occ];
    rewrite !occ_app; ring.
Qed.

(** X2: the mask does not depend on the order of the input. *)
Theorem hsm_state_from_flags_permutation (a b : list string) :
  Permutation a b ->
  hsm_state_from_flags a = hsm_state_from_flags b.
Proof.
  intros Hp. rewrite !hsm_state_from_flags_weighted. f_equal.
  assert (Hocc : forall name, occ name a = occ name b).
  { intros name. unfold occ. f_equal.
    apply (Permutation_count_occ string_dec); exact Hp. }
  unfold flag_values. cbn [weighted_occ]. rewrite !Hocc. reflexivity.
Qed.

Lemma hsm_state_from_flags_permutation_witness :
  hsm_state_from_flags ["LOST"; "EXISTS"; "DIRTY"]
  = hsm_state_from_flags ["DIRTY"; "LOST"; "EXISTS"].
Proof.
  apply (hsm_state_from_flags_permutation
           ["LOST"; "EXISTS"; "DIRTY"] ["DIRTY"; "LOST"; "EXISTS"]).
  apply perm_trans with (l' := ["LOST"; "DIRTY"; "EXISTS"]).
  - apply perm_skip, perm_swap.
  - apply perm_swap.
Defined.

Lemma table_occ_le_length (flags : list string) :
  occ "EXISTS" flags + occ "DIRTY" flags + occ "RELEASED" flags
  + occ "ARCHIVED" flags + occ "NORELEASE" flags + occ "NOARCHIVE" flags
  + occ "LOST" flags
  <= Z.of_nat (List.length flags).
Proof.
  induction flags as [|flag rest IH]; [reflexivity|].
  rewrite !occ_cons. cbn [List.length]. rewrite Nat2Z.inj_succ.
  repeat match goal with
         | |- context [String.eqb ?n flag] =>
             destruct (String.eqb_spec n flag)
         end;
    first [congruence | cbv beta iota; lia].
Qed.

Lemma weighted_occ_bounds (flags : list string) :
  0 <= weighted_occ flag_values flags <= 64 * Z.of_nat (List.length flags)
  /\ (NoDup flags -> weighted_occ flag_values flags <= 127).
Proof.
  unfold flag_values. cbn [weighted_occ].
  pose proof (table_occ_le_length flags) as Hlen.
  pose proof (occ_nonneg "EXISTS" flags). pose proof (occ_nonneg "DIRTY" flags).
  pose proof (occ_nonneg "RELEASED" flags).
  pose proof (occ_nonneg "ARCHIVED" flags).
  pose proof (occ_nonneg "NORELEASE" flags).
  pose proof (occ_nonneg "NOARCHIVE" flags).
  pose proof (occ_nonneg "LOST" flags).
  split; [lia|].
  intros Hnd.
  pose proof (occ_NoDup "EXISTS" flags Hnd).
  pose proof (occ_NoDup "DIRTY" flags Hnd).
  pose proof (occ_NoDup "RELEASED" flags Hnd).
  pose proof (occ_NoDup "ARCHIVED" flags Hnd).
  pose proof (occ_NoDup "NORELEASE" flags Hnd).
  pose proof (occ_NoDup "NOARCHIVE" flags Hnd).
  pose proof (occ_NoDup "LOST" flags Hnd).
  lia.
Qed.

(** X3: the mask is never negative and is at most 64 times the number of
    names given; when no name is repeated it is at most 0x7F, so it fits
    the 32-bit argument of the native call. *)
Theorem hsm_state_from_flags_bounds (flags : list string) :
  exists m,
    hsm_state_from_flags flags = Ok m
    /\ 0 <= m <= 64 * Z.of_nat (List.length flags)
    /\ (NoDup flags -> m <= 127 /\ m mod 2 ^ 32 = m).
Proof.
  exists (weighted_occ flag_values flags).
  split; [apply hsm_state_from_flags_weighted|].
  destruct (weighted_occ_bounds flags) as [Hb Hnd].
  split; [exact Hb|].
  intros H. specialize (Hnd H). split; [exact Hnd|].
  apply Z.mod_small. lia.
Qed.

Lemma hsm_state_from_flags_bounds_witness :
  exists m,
    hsm_state_from_flags ["LOST"; "EXISTS"] = Ok m
    /\ 0 <= m <= 64 * Z.of_nat (List.length ["LOST"; "EXISTS"])
    /\ m <= 127.
Proof.
  destruct (hsm_state_from_flags_bounds ["LOST"; "EXISTS"])
    as (m & Hm & Hb & Hnd).
  exists m. split; [exact Hm|]. split; [exact Hb|].
  apply Hnd. repeat constructor; simpl; intuition discriminate.
Defined.

(** ** HSM_state: what the decoded list looks like *)

Lemma land_pow2_testbit (M i : Z) :
  0 <= i -> (Z.land M (2 ^ i) =? 0) = negb (Z.testbit M i).
Proof.
  intros Hi.
  assert (H : Z.land M (2 ^ i) = if Z.testbit M i then 2 ^ i else 0).
  { apply Z.bits_inj'. intros n Hn.
    rewrite Z.land_spec, Z.pow2_bits_eqb by exact Hi.
    destruct (Z.eqb_spec i n) as [->|Hne].
    - destruct (Z.testbit M n) eqn:E.
      + rewrite Z.pow2_bits_eqb, Z.eqb_refl by exact Hn. reflexivity.
      + rewrite Z.bits_0. reflexivity.
    - rewrite andb_false_r.
      destruct (Z.testbit M i).
      + rewrite Z.pow2_bits_eqb by exact Hi.
        symmetry. apply Z.eqb_neq. exact Hne.
      + rewrite Z.bits_0. reflexivity. }
  rewrite H. destruct (Z.testbit M i); cbn [negb].
  - apply Z.eqb_neq. pose proof (Z.pow_pos_nonneg 2 i ltac:(lia) Hi). lia.
  - reflexivity.
Qed.

Lemma In_flags_of_mask (M : Z) (vals : list (string * Z)) (x : string) :
  In x (flags_of_mask M vals)
  <-> exists v, In (x, v) vals /\ Z.land M v <> 0.
Proof.
  induction vals as [|[n v] vals IH]; cbn [flags_of_mask].
  - split; [intros [] | intros (v & [] & _)].
  - destruct (Z.eqb_spec (Z.land M v) 0) as [Hz|Hnz].
    + rewrite IH. split.
      * intros (v' & Hin & Hv'). exists v'. split; [right; exact Hin | exact Hv'].
      * intros (v' & [Heq|Hin] & Hv').
        -- inversion Heq; subst. contradiction.
        -- exists v'. auto.
    + cbn [In]. rewrite IH. split.
      * intros [<-|(v' & Hin & Hv')].
        -- exists v. split; [left; reflexivity | exact Hnz].
        -- exists v'. split; [right; exact Hin | exact Hv'].
      * intros (v' & [Heq|Hin] & Hv').
        -- inversion Heq; subst. left. reflexivity.
        -- right. exists v'. auto.
Qed.

Lemma In_flag_values_bit (M : Z) (i : Z) (name : string) :
  0 <= i ->
  In (name, 2 ^ i) flag_values ->
  (forall v, In (name, v) flag_values -> v = 2 ^ i) ->
  (In name (flags_of_mask M flag_values) <-> Z.testbit M i = true).
Proof.
  intros Hi Hin Huniq. rewrite In_flags_of_mask. split.
  - intros (v & Hv & Hnz). rewrite (Huniq v Hv) in Hnz.
    apply Z.eqb_neq in Hnz. rewrite land_pow2_testbit in Hnz by exact Hi.
    destruct (Z.testbit M i); [reflexivity | discriminate].
  - intros Hbit. exists (2 ^ i). split; [exact Hin|].
    apply Z.eqb_neq. rewrite land_pow2_testbit by exact Hi.
    rewrite Hbit. reflexivity.
Qed.

Ltac flag_bit i :=
  apply (In_flag_values_bit _ i);
  [ lia
  | cbn; tauto
  | let v := fresh "v" in
    let H := fresh "H" in
    intros v H; cbn in H;
    repeat (destruct H as [H|H]; [inversion H; reflexivity || discriminate H|]);
    destruct H ].

(** X4: decoding never fails, keeps the archive id, and lists a flag name
    exactly when its bit is set in the mask: bit 0 is EXISTS, bit 1 DIRTY,
    ... bit 6 LOST; NONE is never listed. *)
Theorem HSM_state_init_bits (hus : hsm_user_state) :
  exists st,
    HSM_state_init hus = Ok st
    /\ archive_id st = hus_archive_id hus
    /\ ~ In "NONE" (states st)
    /\ forall i name,
         nth_error flag_names (S i) = Some name ->
         (In name (states st)
          <-> Z.testbit (hus_states hus) (Z.of_nat i) = true).
Proof.
  eexists. split; [apply HSM_state_init_flags|].
  cbn [archive_id states]. split; [reflexivity|]. split.
  - rewrite In_flags_of_mask. intros (v & Hv & Hnz).
    cbn in Hv.
    repeat (destruct Hv as [Hv|Hv];
            [inversion Hv; subst; rewrite ?Z.land_0_r in Hnz;
             congruence || discriminate Hv|]).
    destruct Hv.
  - intros i name Hname.
    destruct i as [|[|[|[|[|[|[|i]]]]]]]; cbn in Hname;
      try (destruct i; discriminate Hname);
      inversion Hname; subst name.
    + flag_bit 0.
    + flag_bit 1.
    + flag_bit 2.
    + flag_bit 3.
    + flag_bit 4.
    + flag_bit 5.
    + flag_bit 6.
Qed.

Lemma HSM_state_init_bits_witness :
  exists st,
    HSM_state_init {| hus_states := 9; hus_archive_id := 2 |} = Ok st
    /\ (In "ARCHIVED" (states st) <-> Z.testbit 9 3 = true).
Proof.
  destruct (HSM_state_init_bits {| hus_states := 9; hus_archive_id := 2 |})
    as (st & Hst & _ & _ & Hbits).
  exists st. split; [exact Hst|].
  apply (Hbits 3%nat "ARCHIVED"). reflexivity.
Defined.

Lemma low_seven_bits_check (P : Z -> bool) :
  forallb P (map Z.of_nat (List.seq 0 128)) = true ->
  forall M, P (Z.land M 127) = true.
Proof.
  intros Hall M. rewrite forallb_forall in Hall. apply Hall.
  assert (Hlow : 0 <= Z.land M 127 < 128).
  { change 127 with (Z.ones 7). rewrite Z.land_ones by lia.
    apply Z.mod_pos_bound. reflexivity. }
  rewrite <- (Z2Nat.id (Z.land M 127)) by lia.
  apply in_map, in_seq. lia.
Qed.

Lemma decode_shape_low : forallb decode_shape_ok (map Z.of_nat (List.seq 0 128)) = true.
Proof. vm_compute. reflexivity. Qed.

Lemma summary_threshold_low :
  forallb summary_threshold_ok (map Z.of_nat (List.seq 0 128)) = true.
Proof. vm_compute. reflexivity. Qed.

(** X5: the decoded list holds the flags in the order of the flag table,
    without repetition, has at most seven entries, and is determined by
    the low seven bits of the mask alone. *)
Theorem HSM_state_init_shape (hus : hsm_user_state) :
  exists st,
    HSM_state_init hus = Ok st
    /\ states st = in_table_order (states st)
    /\ NoDup (states st)
    /\ (List.length (states st) <= 7)%nat
    /\ HSM_state_init {| hus_states := Z.land (hus_states hus) 127;
                         hus_archive_id := hus_archive_id hus |} = Ok st.
Proof.
  eexists. split; [apply HSM_state_init_flags|].
  cbn [states].
  pose proof (low_seven_bits_check decode_shape_ok decode_shape_low
                (hus_states hus)) as Hok.
  unfold decode_shape_ok in Hok. rewrite <- flags_of_mask_low in Hok.
  apply andb_true_iff in Hok. destruct Hok as [Hok _].
  apply andb_true_iff in Hok. destruct Hok as [Heq Hlen].
  destruct (list_eq_dec string_dec _ _) as [Heq'|]; [|discriminate].
  split; [exact Heq'|]. split; [|split].
  - rewrite Heq'. unfold in_table_order. apply NoDup_filter.
    repeat constructor; simpl; intuition discriminate.
  - apply Nat.leb_le. exact Hlen.
  - rewrite HSM_state_init_flags. cbn [hus_states hus_archive_id].
    rewrite <- flags_of_mask_low. reflexivity.
Qed.

Lemma HSM_state_str_no_state (self : HSM_state) :
  HSM_state_str self = "No HSM state"
  <-> (List.length (states self) <= 1)%nat.
Proof.
  unfold HSM_state_str.
  destruct (Nat.ltb_spec 1 (List.length (states self))) as [Hlt|Hle].
  - split; [|lia]. cbn [append]. discriminate.
  - split; [lia | reflexivity].
Qed.

(** X6: the summary of a decoded state is "No HSM state" exactly when at
    most one of the seven table bits is set in the mask; in particular a
    file whose only flag is EXISTS, or ARCHIVED, or any other single
    flag, is summarised as having no HSM state. *)
Theorem HSM_state_str_single_flag (hus : hsm_user_state) (st : HSM_state) :
  HSM_state_init hus = Ok st ->
  (HSM_state_str st = "No HSM state"
   <-> at_most_one_bit (Z.land (hus_states hus) 127) = true)
  /\ (forall i, 0 <= i < 7 ->
                Z.land (hus_states hus) 127 = 2 ^ i ->
                HSM_state_str st = "No HSM state").
Proof.
  intros Hst. rewrite HSM_state_init_flags in Hst.
  inversion Hst as [Hst']. clear Hst.
  assert (Hiff : HSM_state_str
                   {| archive_id := hus_archive_id hus;
                      states := flags_of_mask (hus_states hus) flag_values |}
                 = "No HSM state"
                 <-> at_most_one_bit (Z.land (hus_states hus) 127) = true).
  { rewrite HSM_state_str_no_state. cbn [states].
    pose proof (low_seven_bits_check summary_threshold_ok
                  summary_threshold_low (hus_states hus)) as Hok.
    unfold summary_threshold_ok in Hok. rewrite <- flags_of_mask_low in Hok.
    apply Bool.eqb_prop in Hok. rewrite <- Hok. symmetry. apply Nat.leb_le. }
  split; [exact Hiff|].
  intros i Hi Hpow. apply Hiff. rewrite Hpow.
  assert (Hcases : i = 0 \/ i = 1 \/ i = 2 \/ i = 3 \/ i = 4 \/ i = 5 \/ i = 6)
    by lia.
  repeat (destruct Hcases as [->|Hcases]; [reflexivity|]).
  subst i. reflexivity.
Qed.

Lemma HSM_state_str_single_flag_witness :
  HSM_state_str {| archive_id := 2; states := ["ARCHIVED"] |} = "No HSM state".
Proof.
  apply (HSM_state_str_single_flag
           {| hus_states := 8; hus_archive_id := 2 |}
           {| archive_id := 2; states := ["ARCHIVED"] |} eq_refl)
    with (i := 3); [lia | reflexivity].
Defined.

(** ** set_hsm_state *)

Lemma set_hsm_state_run (h : host) (filename : string)
    (setmask clearmask : list string) (archive : Z) (st : os_state) :
  set_hsm_state h filename setmask clearmask archive st
  = (match llapi_hsm_state_set h
             [PyBytes filename; PyInt (weighted_occ flag_values setmask);
              PyInt (weighted_occ flag_values clearmask); PyInt archive] with
     | Refused => Raise ArgumentError
     | Returned err _ =>
         if err <? 0 then Raise (IOError (- err) (strerror h (- err)))
         else Ok tt
     end,
     {| fds := fds st; pipes := pipes st; written := written st;
        stdout := stdout st
                  ++ [set_hsm_state_line filename
                        (weighted_occ flag_values setmask)
                        (weighted_occ flag_values clearmask) archive];
        syscalls := syscalls st |}).
Proof.
  unfold set_hsm_state, bind, lift.
  rewrite !hsm_state_from_flags_weighted. cbn [print fst snd].
  destruct (llapi_hsm_state_set h _) as [err u|]; [|reflexivity].
  destruct (err <? 0); replace (0 - err) with (- err) by lia; reflexivity.
Qed.

(** X7: whatever the native call does (refused, failed or succeeded),
    [set_hsm_state] has printed one line with the file name, the two masks
    and the archive id to standard output, and has touched neither the
    descriptors nor the pipes of the process; its result is the translated
    return code of the call made with the two masks. *)
Theorem set_hsm_state_prints (h : host) (filename : string)
    (setmask clearmask : list string) (archive : Z) (st : os_state) :
  exists s c,
    hsm_state_from_flags setmask = Ok s
    /\ hsm_state_from_flags clearmask = Ok c
    /\ stdout (snd (set_hsm_state h filename setmask clearmask archive st))
       = stdout st ++ [set_hsm_state_line filename s c archive]
    /\ fds (snd (set_hsm_state h filename setmask clearmask archive st))
       = fds st
    /\ pipes (snd (set_hsm_state h filename setmask clearmask archive st))
       = pipes st
    /\ written (snd (set_hsm_state h filename setmask clearmask archive st))
       = written st
    /\ syscalls (snd (set_hsm_state h filename setmask clearmask archive st))
       = syscalls st
    /\ fst (set_hsm_state h filename setmask clearmask archive st)
       = match llapi_hsm_state_set h
                 [PyBytes filename; PyInt s; PyInt c; PyInt archive] with
         | Refused => Raise ArgumentError
         | Returned err _ =>
             if err <? 0 then Raise (IOError (- err) (strerror h (- err)))
             else Ok tt
         end.
Proof.
  exists (weighted_occ flag_values setmask), (weighted_occ flag_values clearmask).
  split; [apply hsm_state_from_flags_weighted|].
  split; [apply hsm_state_from_flags_weighted|].
  rewrite set_hsm_state_run. cbn [fst snd stdout fds pipes written syscalls].
  repeat split.
Qed.

(** X8: bound with the declared [argtypes], the call of [set_hsm_state]
    is not refused when no flag name is repeated and the archive id is a
    32-bit value: the native function receives the file name, the two
    masks and the archive id unchanged, and its return code decides the
    result. *)
Theorem set_hsm_state_through_argtypes (h : host)
    (native : list cval -> ffi_outcome unit) (filename : string)
    (setmask clearmask : list string) (archive raw : Z) (st : os_state) :
  NoDup setmask ->
  NoDup clearmask ->
  0 <= archive < 2 ^ 32 ->
  exists s c,
    hsm_state_from_flags setmask = Ok s
    /\ hsm_state_from_flags clearmask = Ok c
    /\ llapi_hsm_state_set (bind_hsm_state_set h native)
         [PyBytes filename; PyInt s; PyInt c; PyInt archive]
       = native [CPtr (Some filename); CInt s; CInt c; CInt archive]
    /\ (native [CPtr (Some filename); CInt s; CInt c; CInt archive]
        = Returned raw tt ->
        fst (set_hsm_state (bind_hsm_state_set h native)
               filename setmask clearmask archive st)
        = if raw <? 0 then Raise (IOError (- raw) (strerror h (- raw)))
          else Ok tt).
Proof.
  intros Hs Hc Ha.
  destruct (weighted_occ_bounds setmask) as [Bs Ns].
  destruct (weighted_occ_bounds clearmask) as [Bc Nc].
  specialize (Ns Hs). specialize (Nc Hc).
  exists (weighted_occ flag_values setmask), (weighted_occ flag_values clearmask).
  split; [apply hsm_state_from_flags_weighted|].
  split; [apply hsm_state_from_flags_weighted|].
  assert (Hcall :
    llapi_hsm_state_set (bind_hsm_state_set h native)
      [PyBytes filename; PyInt (weighted_occ flag_values setmask);
       PyInt (weighted_occ flag_values clearmask); PyInt archive]
    = native [CPtr (Some filename); CInt (weighted_occ flag_values setmask);
              CInt (weighted_occ flag_values clearmask); CInt archive]).
  { cbn [llapi_hsm_state_set bind_hsm_state_set].
    unfold ctypes_bind, llapi_hsm_state_set_argtypes.
    cbn [marshal from_param].
    rewrite !Z.mod_small by lia. reflexivity. }
  split; [exact Hcall|].
  intros Hnat. rewrite set_hsm_state_run. cbn [fst].
  rewrite Hcall, Hnat. reflexivity.
Qed.

Lemma set_hsm_state_through_argtypes_witness :
  fst (set_hsm_state
         (bind_hsm_state_set (sample_host 0 (sample_lov 0))
            (fun _ => Returned (-2) tt))
         "/lustre/f" ["ARCHIVED"] ["DIRTY"] 1 sample_process)
  = Raise (IOError 2 "No such file or directory").
Proof.
  destruct (set_hsm_state_through_argtypes (sample_host 0 (sample_lov 0))
              (fun _ => Returned (-2) tt) "/lustre/f" ["ARCHIVED"] ["DIRTY"]
              1 (-2) sample_process)
    as (s & c & _ & _ & _ & Hres).
  - repeat constructor; simpl; tauto.
  - repeat constructor; simpl; tauto.
  - lia.
  - apply Hres. reflexivity.
Defined.

(** ** getstripe: what every returned object satisfies *)

Lemma getstripe_copy_inv (objects l : list lov_user_ost_data_v1) (n : nat) :
  getstripe_copy (List.seq 0 n) objects [] = Ok l ->
  l = firstn n objects /\ (n <= List.length objects)%nat.
Proof.
  intros H.
  destruct (Nat.le_gt_cases n (List.length objects)) as [Hle|Hgt].
  - rewrite getstripe_copy_firstn in H by lia.
    inversion H. split; [reflexivity | exact Hle].
  - rewrite getstripe_copy_past_end in H by lia. discriminate.
Qed.

(** X9: whenever [getstripe] returns an object, whatever the native stripe
    count and buffer were: its [lovdata] is the structure the native call
    filled, its placements are a prefix of the native placement array (so
    never more than the array holds), its stripe offset is the target
    index of the first placement or -1 when there is none, and its stripe
    count and size are the native ones, or 0 and 0 after the return code
    -61. *)
Theorem getstripe_result_invariant (h : host) (filename : pyval)
    (obj : stripeObj) :
  getstripe h filename = Ok obj ->
  exists err lov,
    llapi_file_get_stripe h [filename] lov_user_md_v1_new = Returned err lov
    /\ (err = -61 \/ 0 <= err)
    /\ lovdata obj = lov
    /\ ostobjects obj
       = firstn (List.length (ostobjects obj)) (lmm_objects lov)
    /\ (List.length (ostobjects obj) <= List.length (lmm_objects lov))%nat
    /\ stripeoffset obj
       = match ostobjects obj with
         | o :: _ => l_ost_idx o
         | [] => -1
         end
    /\ (err = -61 ->
        stripecount obj = 0 /\ stripesize obj = 0 /\ ostobjects obj = [])
    /\ (0 <= err ->
        stripecount obj = lmm_stripe_count lov
        /\ stripesize obj = lmm_stripe_size lov
        /\ List.length (ostobjects obj) = Z.to_nat (lmm_stripe_count lov)).
Proof.
  unfold getstripe.
  destruct (llapi_file_get_stripe h [filename] lov_user_md_v1_new)
    as [err lov|]; [|discriminate].
  destruct (Z.ltb_spec err 0) as [Hneg|Hpos];
    destruct (Z.eqb_spec err (-61)) as [H61|Hn61]; cbn [andb negb];
    try discriminate.
  - intros H. inversion H. subst obj. clear H.
    exists err, lov. cbn. repeat split; auto with zarith; lia.
  - lia.
  - unfold range0. cbn [ostobjects stripeObj_init].
    destruct (getstripe_copy (List.seq 0 (Z.to_nat (lmm_stripe_count lov)))
                (lmm_objects lov) []) as [objs|e] eqn:Hcopy;
      cbn [rbind]; [|discriminate].
    apply getstripe_copy_inv in Hcopy. destruct Hcopy as [Hobjs Hlen].
    intros H. inversion H. subst obj. clear H.
    exists err, lov.
    cbn [lovdata ostobjects stripecount stripesize stripeoffset].
    assert (Hl : List.length objs = Z.to_nat (lmm_stripe_count lov)).
    { rewrite Hobjs, length_firstn. lia. }
    split; [reflexivity|]. split; [right; exact Hpos|].
    split; [reflexivity|]. split; [rewrite Hl; exact Hobjs|].
    split; [lia|]. split.
    + destruct objs; reflexivity.
    + split; [lia|]. intros _. repeat split. exact Hl.
Qed.

Lemma getstripe_result_invariant_witness :
  exists err lov,
    llapi_file_get_stripe (sample_host 0 (sample_lov 2))
      [PyBytes "/lustre/file"] lov_user_md_v1_new = Returned err lov
    /\ (err = -61 \/ 0 <= err).
Proof.
  destruct (getstripe_result_invariant (sample_host 0 (sample_lov 2))
              (PyBytes "/lustre/file")
              {| lovdata := sample_lov 2; stripecount := 2;
                 stripesize := 1048576; stripeoffset := 7;
                 ostobjects := [sample_ost 7; sample_ost 3] |} eq_refl)
    as (err & lov & Hcall & Herr & _).
  exists err, lov. split; [exact Hcall | exact Herr].
Defined.

(** X10: the stripe offset, magic, pattern and object ids the native call
    reports play no part in the result: two native answers with the same
    return code, stripe count, stripe size and placement array give the
    same stripe count, size, offset and placements, or the same
    exception. *)
Theorem getstripe_ignores_native_offset (h1 h2 : host) (filename : pyval)
    (err : Z) (lov1 lov2 : lov_user_md_v1) :
  strerror h1 = strerror h2 ->
  llapi_file_get_stripe h1 [filename] lov_user_md_v1_new = Returned err lov1 ->
  llapi_file_get_stripe h2 [filename] lov_user_md_v1_new = Returned err lov2 ->
  lmm_stripe_count lov1 = lmm_stripe_count lov2 ->
  lmm_stripe_size lov1 = lmm_stripe_size lov2 ->
  lmm_objects lov1 = lmm_objects lov2 ->
  stripe_fields (getstripe h1 filename) = stripe_fields (getstripe h2 filename).
Proof.
  intros Hstr H1 H2 Hcount Hsize Hobjs. unfold getstripe.
  rewrite H1, H2, Hstr, Hcount, Hsize, Hobjs.
  destruct ((err <? 0) && negb (err =? -61)); [reflexivity|].
  destruct (err =? -61); [reflexivity|].
  destruct (getstripe_copy _ _ _); reflexivity.
Qed.

Lemma getstripe_ignores_native_offset_witness :
  stripe_fields (getstripe (sample_host 0 (sample_lov 2)) (PyBytes "/lustre/f"))
  = stripe_fields
      (getstripe
         (sample_host 0
            {| lmm_magic := 0; lmm_pattern := 1; lmm_object_id := 9;
               lmm_object_gr := 9; lmm_stripe_size := 1048576;
               lmm_stripe_count := 2; lmm_stripe_offset := 5;
               lmm_objects := lmm_objects (sample_lov 2) |})
         (PyBytes "/lustre/f")).
Proof.
  apply (getstripe_ignores_native_offset
           (sample_host 0 (sample_lov 2))
           (sample_host 0
              {| lmm_magic := 0; lmm_pattern := 1; lmm_object_id := 9;
                 lmm_object_gr := 9; lmm_stripe_size := 1048576;
                 lmm_stripe_count := 2; lmm_stripe_offset := 5;
                 lmm_objects := lmm_objects (sample_lov 2) |})
           (PyBytes "/lustre/f") 0 (sample_lov 2)
           {| lmm_magic := 0; lmm_pattern := 1; lmm_object_id := 9;
              lmm_object_gr := 9; lmm_stripe_size := 1048576;
              lmm_stripe_count := 2; lmm_stripe_offset := 5;
              lmm_objects := lmm_objects (sample_lov 2) |});
    reflexivity.
Defined.

(** ** Copying a layout: getstripe into setstripe *)

(** X11: when [setstripe] is given the object that [getstripe] returned
    for a successful query, the explicit stripe parameters are ignored and
    the native create call is handed the native stripe size, the native
    stripe count, and as stripe offset the target index of the source
    file's first placement (-1 when it has none): the copy is pinned to
    start on the same target as the source. *)
Theorem setstripe_args_of_getstripe (h : host) (src path : pyval)
    (err : Z) (lov : lov_user_md_v1) (size offset count : Z) :
  llapi_file_get_stripe h [src] lov_user_md_v1_new = Returned err lov ->
  0 <= err ->
  List.length (lmm_objects lov) = LMM_OBJECTS_LEN ->
  lmm_stripe_count lov <= 2000 ->
  exists obj,
    getstripe h src = Ok obj
    /\ setstripe_args h path (Some obj) size offset count
       = [path; PyInt (O_CREAT h); PyStr "0700";
          PyInt (lmm_stripe_size lov);
          PyInt (if 0 <? lmm_stripe_count lov
                 then l_ost_idx (hd lov_user_ost_data_v1_new (lmm_objects lov))
                 else -1);
          PyInt (lmm_stripe_count lov);
          PyInt 0].
Proof.
  intros Hcall Hok Hlen Hcount. unfold getstripe. rewrite Hcall.
  destruct (Z.ltb_spec err 0) as [|_]; [lia|].
  destruct (Z.eqb_spec err (-61)) as [|_]; [lia|].
  cbn [andb]. unfold range0.
  rewrite getstripe_copy_firstn
    by (rewrite Hlen; unfold LMM_OBJECTS_LEN; lia).
  cbn [rbind skipn app ostobjects stripeObj_init].
  eexists. split; [reflexivity|].
  unfold setstripe_args.
  cbn [stripesize stripeoffset stripecount ostobjects].
  do 4 f_equal.
  destruct (Z.ltb_spec 0 (lmm_stripe_count lov)) as [Hpos|Hle].
  - destruct (lmm_objects lov) as [|o objs];
      [unfold LMM_OBJECTS_LEN in Hlen; discriminate Hlen|].
    destruct (Z.to_nat (lmm_stripe_count lov)) eqn:Hn; [lia|].
    reflexivity.
  - replace (Z.to_nat (lmm_stripe_count lov)) with 0%nat by lia.
    reflexivity.
Qed.

Lemma setstripe_args_of_getstripe_witness :
  exists obj,
    getstripe (sample_host 0 (sample_lov 2)) (PyBytes "/lustre/foo") = Ok obj
    /\ setstripe_args (sample_host 0 (sample_lov 2))
         (PyBytes "/lustre/testfile") (Some obj) 0 (-1) 1
       = [PyBytes "/lustre/testfile"; PyInt 64; PyStr "0700";
          PyInt 1048576; PyInt 7; PyInt 2; PyInt 0].
Proof.
  apply (setstripe_args_of_getstripe (sample_host 0 (sample_lov 2))
           (PyBytes "/lustre/foo") (PyBytes "/lustre/testfile")
           0 (sample_lov 2) 0 (-1) 1);
    [reflexivity | lia | reflexivity | simpl; lia].
Defined.

(** ** Diagnostic capture: what it collects and what it leaves behind *)

Lemma captureStderr_init_frame (st st1 : os_state) (m : captureStderr)
    (tgt : ofd) :
  fd_lookup (fds st) 2 = Some tgt ->
  captureStderr_init st = (Ok m, st1) ->
  (forall x, x <> 2%nat -> x <> pipeout m -> x <> pipein m ->
             x <> oldstderr m ->
             fd_lookup (fds st1) x = fd_lookup (fds st) x)
  /\ fd_lookup (fds st) (pipeout m) = None
  /\ fd_lookup (fds st) (pipein m) = None
  /\ fd_lookup (fds st) (oldstderr m) = None
  /\ written st1 = written st
  /\ stdout st1 = stdout st.
Proof.
  intros H2 Hinit.
  set (p := List.length (pipes st)).
  set (r := lowest_unused (fds st)).
  set (tbl1 := fd_set (fds st) r (Some (PipeR p))).
  set (w := lowest_unused tbl1).
  set (tbl2 := fd_set tbl1 w (Some (PipeW p))).
  set (old := lowest_unused tbl2).
  assert (Hr : fd_lookup (fds st) r = None) by apply lowest_unused_free.
  assert (Hw : fd_lookup tbl1 w = None) by apply lowest_unused_free.
  assert (Ho : fd_lookup tbl2 old = None) by apply lowest_unused_free.
  unfold tbl2 in Ho. rewrite fd_lookup_set in Ho.
  destruct (Nat.eqb_spec w old) as [|How]; [discriminate|].
  unfold tbl1 in Ho, Hw. rewrite fd_lookup_set in Ho, Hw.
  destruct (Nat.eqb_spec r old) as [|Hro]; [discriminate|].
  destruct (Nat.eqb_spec r w) as [|Hrw]; [discriminate|].
  revert Hinit.
  unfold captureStderr_init, bind, os_pipe. cbn [fst snd].
  unfold os_dup at 1. cbn [fds log_syscall with_pipes with_fds].
  fold p. fold r. fold tbl1. fold w. fold tbl2.
  assert (H22 : fd_lookup tbl2 2 = Some tgt).
  { unfold tbl2, tbl1. rewrite !fd_lookup_set.
    destruct (Nat.eqb_spec w 2) as [E|_]; [rewrite E in Hw; congruence|].
    destruct (Nat.eqb_spec r 2) as [E|_]; [rewrite E in Hr; congruence|].
    exact H2. }
  rewrite H22. fold old.
  unfold os_dup2. cbn [fds log_syscall with_pipes with_fds].
  rewrite fd_lookup_set.
  destruct (Nat.eqb_spec old w) as [E|_]; [congruence|].
  assert (Hww : fd_lookup tbl2 w = Some (PipeW p))
    by (unfold tbl2; rewrite fd_lookup_set, Nat.eqb_refl; reflexivity).
  rewrite Hww.
  unfold ret. intros Hinit.
  apply pair_equal_spec in Hinit. destruct Hinit as [Hm Hst].
  injection Hm as Hm. subst m st1.
  cbn [pipeout pipein oldstderr fds written stdout log_syscall
       with_pipes with_fds].
  repeat split; auto.
  intros x Hx2 Hxr Hxw Hxo. unfold tbl2, tbl1. rewrite !fd_lookup_set.
  destruct (Nat.eqb_spec 2 x); [congruence|].
  destruct (Nat.eqb_spec old x); [congruence|].
  destruct (Nat.eqb_spec w x); [congruence|].
  destruct (Nat.eqb_spec r x); [congruence|].
  reflexivity.
Qed.

(** X12: the capture never stores what it intercepts.  After
    [captureStderr()], what native code writes to descriptor 2 goes into
    the pipe and not to the stream descriptor 2 pointed at.  [readData]
    then returns, with [contents] still the empty [str], only when nothing
    was written; otherwise it raises [TypeError] after one readiness test
    and one read, and the up to 1024 bytes it read are off the pipe and
    in no attribute of the object. *)
Theorem capture_stores_nothing (st : os_state) (tgt : ofd)
    (text : list Byte.byte) :
  fd_lookup (fds st) 2 = Some tgt ->
  (List.length text <= PIPE_CAPACITY)%nat ->
  exists message st1 st2,
    captureStderr_init st = (Ok message, st1)
    /\ contents message = PyStr ""
    /\ native_write 2 text st1 = (Ok tt, st2)
    /\ written st2 = written st
    /\ pending (pipeout message) st2 = List.length text
    /\ (text = [] ->
        readData message st2
        = (Ok message, log_syscall (Sys_select (pipeout message)) st2))
    /\ (text <> [] ->
        exists st3,
          readData message st2 = (Raise TypeError, st3)
          /\ syscalls st3
             = syscalls st2 ++ [Sys_select (pipeout message);
                                Sys_read (pipeout message) 1024]
          /\ pending (pipeout message) st3 = (List.length text - 1024)%nat
          /\ fds st3 = fds st2
          /\ written st3 = written st).
Proof.
  intros H2 Hfit.
  destruct (captureStderr_init_run st tgt H2)
    as (r & w & old & st1 & Hinit & L2 & Lr & Lw & Lo & _ & Hpipes & Hsys1).
  destruct (captureStderr_init_frame st st1 _ tgt H2 Hinit)
    as (_ & _ & _ & _ & Hwr & _).
  set (message := {| pipeout := r; pipein := w; oldstderr := old;
                     contents := PyStr "" |}) in *.
  set (st2 := with_pipes (pipes st ++ [text]) st1).
  assert (Hwrite : native_write 2 text st1 = (Ok tt, st2)).
  { rewrite (native_write_captured st1 (pipes st) text L2 Hpipes).
    apply Nat.leb_le in Hfit. rewrite Hfit. reflexivity. }
  assert (R2 : fd_lookup (fds st2) (pipeout message)
               = Some (PipeR (List.length (pipes st)))) by exact Lr.
  assert (Hbuf : nth (List.length (pipes st)) (pipes st2) [] = text).
  { unfold st2. cbn [pipes with_pipes]. apply nth_app_last. }
  exists message, st1, st2.
  split; [exact Hinit|]. split; [reflexivity|]. split; [exact Hwrite|].
  split; [exact Hwr|].
  split; [unfold pending; rewrite R2, Hbuf; reflexivity|].
  split.
  - intros E. apply (readData_idle message st2 (List.length (pipes st)) R2).
    rewrite Hbuf. exact E.
  - intros Htext. destruct text as [|b buf] eqn:Et; [congruence|].
    eexists. split.
    { apply (readData_str_raises message st2 (List.length (pipes st))
               "" b buf eq_refl R2 Hbuf). }
    cbn [fds syscalls written log_syscall with_pipes].
    rewrite <- app_assoc.
    split; [reflexivity|].
    split.
    { unfold pending. cbn [fds pipes log_syscall with_pipes].
      change (fd_lookup (fds st2) (pipeout message)) with (fd_lookup (fds st1) r).
      rewrite Lr. unfold st2. cbn [pipes with_pipes].
      rewrite list_set_app_last, nth_app_last, length_skipn. reflexivity. }
    split; [reflexivity | exact Hwr].
Qed.

Lemma capture_stores_nothing_witness :
  exists message st1 st2 st3,
    captureStderr_init sample_process = (Ok message, st1)
    /\ native_write 2 [Byte.x77; Byte.x0a] st1 = (Ok tt, st2)
    /\ readData message st2 = (Raise TypeError, st3)
    /\ pending (pipeout message) st3 = 0%nat.
Proof.
  destruct (capture_stores_nothing sample_process (Stream 2)
              [Byte.x77; Byte.x0a] eq_refl
              ltac:(cbn [List.length]; unfold PIPE_CAPACITY; lia))
    as (message & st1 & st2 & Hinit & _ & Hwrite & _ & _ & _ & Hnoisy).
  destruct (Hnoisy ltac:(discriminate)) as (st3 & Hread & _ & Hpending & _).
  exists message, st1, st2, st3.
  split; [exact Hinit|]. split; [exact Hwrite|].
  split; [exact Hread | exact Hpending].
Defined.

(** X13: a capture that is set up and released leaves one descriptor
    behind.  After [captureStderr()] followed by [stopCapture()],
    descriptor 2 and every other descriptor but one are as they were
    before, both ends of the pipe being closed again; the one is the
    duplicate of descriptor 2 that [__init__] saved, free before and open
    afterwards: [stopCapture] does not close it. *)
Theorem stopCapture_leaves_saved_descriptor (st : os_state) (tgt : ofd) :
  fd_lookup (fds st) 2 = Some tgt ->
  exists message st1 st2,
    captureStderr_init st = (Ok message, st1)
    /\ stopCapture message st1 = (Ok tt, st2)
    /\ fd_lookup (fds st) (oldstderr message) = None
    /\ fd_lookup (fds st2) (oldstderr message) = Some tgt
    /\ (forall x, x <> oldstderr message ->
                  fd_lookup (fds st2) x = fd_lookup (fds st) x)
    /\ syscalls st2
       = syscalls st ++ acquire_calls message ++ release_calls message.
Proof.
  intros H2.
  destruct (captureStderr_init_run st tgt H2)
    as (r & w & old & st1 & Hinit & L2 & Lr & Lw & Lo & Hne & Hpipes & Hsys1).
  destruct Hne as (Hr2 & Hw2 & Ho2 & Hrw & Hro & Hwo).
  destruct (captureStderr_init_frame st st1 _ tgt H2 Hinit)
    as (Hframe & Fr & Fw & Fo & _ & _).
  cbn [pipeout pipein oldstderr] in Hframe, Fr, Fw, Fo.
  set (message := {| pipeout := r; pipein := w; oldstderr := old;
                     contents := PyStr "" |}) in *.
  assert (E2r : Nat.eqb 2 r = false) by (apply Nat.eqb_neq; auto).
  assert (E2w : Nat.eqb 2 w = false) by (apply Nat.eqb_neq; auto).
  assert (Erw : Nat.eqb r w = false) by (apply Nat.eqb_neq; auto).
  exists message, st1.
  exists (log_syscall (Sys_close w)
            (with_fds (fd_set (fd_set (fd_set (fds st1) 2 (Some tgt)) r None)
                         w None)
               (log_syscall (Sys_close r)
                  (log_syscall (Sys_dup2 old 2) st1)))).
  split; [exact Hinit|]. split.
  { unfold stopCapture, bind. cbn [pipeout pipein oldstderr message].
    unfold os_dup2. rewrite Lo.
    unfold os_close at 1. cbn [fds log_syscall with_fds].
    rewrite fd_lookup_set, E2r, Lr.
    unfold os_close at 1. cbn [fds log_syscall with_fds].
    rewrite !fd_lookup_set, Erw, E2w, Lw.
    reflexivity. }
  cbn [fds syscalls log_syscall with_fds pipeout pipein oldstderr message
       acquire_calls release_calls].
  split; [exact Fo|]. split.
  { rewrite !fd_lookup_set.
    destruct (Nat.eqb_spec w old); [congruence|].
    destruct (Nat.eqb_spec r old); [congruence|].
    destruct (Nat.eqb_spec 2 old); [congruence|]. exact Lo. }
  split.
  { intros x Hx. rewrite !fd_lookup_set.
    destruct (Nat.eqb_spec w x) as [<-|Hxw]; [symmetry; exact Fw|].
    destruct (Nat.eqb_spec r x) as [<-|Hxr]; [symmetry; exact Fr|].
    destruct (Nat.eqb_spec 2 x) as [<-|Hx2]; [symmetry; exact H2|].
    apply Hframe; congruence. }
  rewrite Hsys1, <- !app_assoc. reflexivity.
Qed.

Lemma stopCapture_leaves_saved_descriptor_witness :
  exists message st1 st2,
    captureStderr_init sample_process = (Ok message, st1)
    /\ stopCapture message st1 = (Ok tt, st2)
    /\ fd_lookup (fds sample_process) (oldstderr message) = None
    /\ fd_lookup (fds st2) (oldstderr message) = Some (Stream 2).
Proof.
  destruct (stopCapture_leaves_saved_descriptor sample_process (Stream 2)
              eq_refl)
    as (message & st1 & st2 & Hinit & Hstop & Hfree & Hleft & _).
  exists message, st1, st2.
  split; [exact Hinit|]. split; [exact Hstop|].
  split; [exact Hfree | exact Hleft].
Defined.

(** X14: there is no release on an exception.  When ctypes refuses the
    arguments of the native call, [setstripe] raises [ArgumentError] with
    the capture still in place: descriptor 2 points at the write end of
    the pipe, the pipe's two descriptors and the saved duplicate are open,
    and no [dup2] back or [close] has been issued. *)
Theorem setstripe_refused_keeps_capture (h : host) (path : pyval)
    (stripeobj : option stripeObj) (size offset count : Z) (st : os_state)
    (tgt : ofd) :
  fd_lookup (fds st) 2 = Some tgt ->
  llapi_file_open h (setstripe_args h path stripeobj size offset count)
  = Refused ->
  exists message st',
    setstripe h path stripeobj size offset count st
    = (Raise ArgumentError, st')
    /\ captureStderr_init st = (Ok message, st')
    /\ fd_lookup (fds st') 2 = Some (PipeW (List.length (pipes st)))
    /\ fd_lookup (fds st') (pipeout message)
       = Some (PipeR (List.length (pipes st)))
    /\ fd_lookup (fds st') (pipein message)
       = Some (PipeW (List.length (pipes st)))
    /\ fd_lookup (fds st') (oldstderr message) = Some tgt
    /\ syscalls st'
       = syscalls st ++ [Sys_pipe (pipeout message) (pipein message);
                         Sys_dup 2 (oldstderr message);
                         Sys_dup2 (pipein message) 2].
Proof.
  intros H2 Hcall.
  destruct (captureStderr_init_run st tgt H2)
    as (r & w & old & st1 & Hinit & L2 & Lr & Lw & Lo & _ & _ & Hsys1).
  exists {| pipeout := r; pipein := w; oldstderr := old;
            contents := PyStr "" |}, st1.
  cbn [pipeout pipein oldstderr].
  split.
  - unfold setstripe, bind. rewrite Hinit.
    unfold call_llapi_file_open. rewrite Hcall. reflexivity.
  - repeat split; assumption.
Qed.

Lemma setstripe_refused_keeps_capture_witness :
  exists message st',
    setstripe (bind_file_open (sample_host 6 (sample_lov 0))
                 (fun _ => Returned 6 []))
      (PyBytes "/lustre/testfile") None 0 (-1) 1 sample_process
    = (Raise ArgumentError, st')
    /\ captureStderr_init sample_process = (Ok message, st')
    /\ fd_lookup (fds st') 2 = Some (PipeW 0).
Proof.
  destruct (setstripe_refused_keeps_capture
              (bind_file_open (sample_host 6 (sample_lov 0))
                 (fun _ => Returned 6 []))
              (PyBytes "/lustre/testfile") None 0 (-1) 1 sample_process
              (Stream 2) eq_refl eq_refl)
    as (message & st' & Hrun & Hinit & H2 & _).
  exists message, st'. repeat split; assumption.
Defined.

(** ** The capture in a process without standard descriptors *)

Lemma lowest_unused_zero (tbl : list (option ofd)) :
  fd_lookup tbl 0 = None -> lowest_unused tbl = 0%nat.
Proof.
  destruct tbl as [|[o|] tbl]; [reflexivity | discriminate | reflexivity].
Qed.

Lemma lowest_unused_one (tbl : list (option ofd)) (o : ofd) :
  fd_lookup tbl 0 = Some o -> fd_lookup tbl 1 = None ->
  lowest_unused tbl = 1%nat.
Proof.
  destruct tbl as [|[o'|] tbl]; try discriminate.
  intros _ H1. cbn [lowest_unused]. f_equal.
  apply lowest_unused_zero. exact H1.
Qed.

(** X15: in a process whose descriptors 0, 1 and 2 are all closed, the
    pipe of the capture takes descriptors 0 and 1, duplicating descriptor
    2 fails, and [setstripe] raises [OSError(EBADF)] before it calls the
    native function, leaving the two ends of the pipe open on descriptors
    0 and 1. *)
Theorem setstripe_without_standard_descriptors (h : host) (path : pyval)
    (stripeobj : option stripeObj) (size offset count : Z) (st : os_state) :
  fd_lookup (fds st) 0 = None ->
  fd_lookup (fds st) 1 = None ->
  fd_lookup (fds st) 2 = None ->
  fst (setstripe h path stripeobj size offset count st)
  = Raise (OSError EBADF)
  /\ fd_lookup (fds (snd (setstripe h path stripeobj size offset count st))) 0
     = Some (PipeR (List.length (pipes st)))
  /\ fd_lookup (fds (snd (setstripe h path stripeobj size offset count st))) 1
     = Some (PipeW (List.length (pipes st)))
  /\ syscalls (snd (setstripe h path stripeobj size offset count st))
     = syscalls st ++ [Sys_pipe 0 1].
Proof.
  intros H0 H1 H2.
  assert (Hw : lowest_unused
                 (fd_set (fds st) 0 (Some (PipeR (List.length (pipes st)))))
               = 1%nat).
  { apply (lowest_unused_one _ (PipeR (List.length (pipes st)))).
    - rewrite fd_lookup_set. reflexivity.
    - rewrite fd_lookup_set. exact H1. }
  assert (Hrun :
    setstripe h path stripeobj size offset count st
    = (Raise (OSError EBADF),
       log_syscall (Sys_pipe 0 1)
         (with_pipes (pipes st ++ [[]])
            (with_fds
               (fd_set
                  (fd_set (fds st) 0 (Some (PipeR (List.length (pipes st)))))
                  1 (Some (PipeW (List.length (pipes st))))) st)))).
  { unfold setstripe, bind at 1. unfold captureStderr_init, bind at 1.
    unfold os_pipe. cbn [fst snd].
    rewrite (lowest_unused_zero (fds st) H0), Hw.
    unfold bind at 1. unfold os_dup.
    cbn [fds log_syscall with_pipes with_fds].
    rewrite !fd_lookup_set. cbn [Nat.eqb]. rewrite H2. reflexivity. }
  rewrite Hrun. cbn [fst snd fds syscalls log_syscall with_pipes with_fds].
  rewrite !fd_lookup_set. cbn [Nat.eqb].
  repeat split.
Qed.

Lemma setstripe_without_standard_descriptors_witness :
  fst (setstripe (sample_host 6 (sample_lov 0)) (PyBytes "/lustre/f")
         None 0 (-1) 1
         {| fds := []; pipes := []; written := []; stdout := [];
            syscalls := [] |})
  = Raise (OSError EBADF).
Proof.
  apply (setstripe_without_standard_descriptors (sample_host 6 (sample_lov 0))
           (PyBytes "/lustre/f") None 0 (-1) 1
           {| fds := []; pipes := []; written := []; stdout := [];
              syscalls := [] |});
    reflexivity.
Defined.

(** ** Text forms *)

Lemma count_char_app (c : ascii) (a b : string) :
  count_char c (a ++ b)%string = (count_char c a + count_char c b)%nat.
Proof.
  induction a as [|x a IH]; cbn [append count_char]; [reflexivity|].
  rewrite IH. lia.
Qed.

Lemma hex_uint_no_char (c : ascii) (d : Hexadecimal.uint) :
  count_char c "0123456789abcdef-" = 0%nat ->
  count_char c (HexadecimalString.NilEmpty.string_of_uint d) = 0%nat.
Proof.
  intros Hc. cbn [count_char] in Hc.
  induction d; cbn [HexadecimalString.NilEmpty.string_of_uint count_char];
    try reflexivity; rewrite IHd;
    repeat match goal with
           | H : context [Ascii.eqb ?a c] |- _ =>
               destruct (Ascii.eqb a c); [discriminate H|]
           end;
    reflexivity.
Qed.

Lemma fmt_x_no_char (c : ascii) (z : Z) :
  count_char c "0123456789abcdef-" = 0%nat ->
  count_char c (fmt_x z) = 0%nat.
Proof.
  intros Hc. unfold fmt_x.
  assert (Hu : forall d, count_char c (HexadecimalString.NilZero.string_of_uint d)
                         = 0%nat).
  { intros d. pose proof (hex_uint_no_char c d Hc) as Hd.
    destruct d; try exact Hd.
    cbn [HexadecimalString.NilZero.string_of_uint count_char].
    cbn [count_char] in Hc.
    destruct (Ascii.eqb "0" c); [discriminate Hc | reflexivity]. }
  destruct (Z.to_hex_int z) as [d|d];
    cbn [HexadecimalString.NilZero.string_of_int count_char]; [apply Hu|].
  rewrite Hu. cbn [count_char] in Hc.
  repeat match goal with
         | H : context [Ascii.eqb ?a c] |- _ =>
             destruct (Ascii.eqb a c); [discriminate H|]
         end.
  reflexivity.
Qed.

Lemma fmt_x_inj (a b : Z) : fmt_x a = fmt_x b -> a = b.
Proof.
  unfold fmt_x. intros H.
  assert (Hn : forall z, Z.to_hex_int z <> Hexadecimal.Pos Hexadecimal.Nil
                         /\ Z.to_hex_int z <> Hexadecimal.Neg Hexadecimal.Nil).
  { intros [|p|p]; split; cbn; try discriminate;
      intros E; injection E as E;
      apply (HexadecimalPos.Unsigned.to_uint_nonnil p E). }
  apply HexadecimalZ.to_int_inj.
  apply (f_equal HexadecimalString.NilZero.int_of_string) in H.
  rewrite !HexadecimalString.NilZero.isi in H by apply Hn.
  injection H as H. exact H.
Qed.

Lemma split_at_char (c : ascii) (a b r1 r2 : string) :
  count_char c a = 0%nat -> count_char c b = 0%nat ->
  (a ++ String c r1 = b ++ String c r2)%string ->
  a = b /\ r1 = r2.
Proof.
  revert b. induction a as [|x a IH]; intros [|y b] Ha Hb H;
    cbn [append count_char] in *.
  - injection H as H. auto.
  - injection H as Hxy H. subst y. rewrite Ascii.eqb_refl in Hb. discriminate.
  - injection H as Hxy H. subst x. rewrite Ascii.eqb_refl in Ha. discriminate.
  - injection H as Hxy H. subst y.
    destruct (Ascii.eqb x c); [discriminate|].
    destruct (IH b Ha Hb H) as [-> ->]. auto.
Qed.

(** X16: the text form of a Fid identifies it: two Fids with the same
    text [[0x<seq>:0x<oid>:0x<ver>]] have the same sequence, object id and
    version. *)
Theorem Fid_str_injective (a b : Fid) : Fid_str a = Fid_str b -> a = b.
Proof.
  destruct a as [s1 o1 v1], b as [s2 o2 v2]. unfold Fid_str.
  cbn [seq oid ver append]. intros H. injection H as H.
  apply split_at_char in H; try (apply fmt_x_no_char; reflexivity).
  destruct H as [Hs H]. cbn [append] in H. injection H as H.
  apply split_at_char in H; try (apply fmt_x_no_char; reflexivity).
  destruct H as [Ho H]. cbn [append] in H. injection H as H.
  apply split_at_char in H; try (apply fmt_x_no_char; reflexivity).
  destruct H as [Hv _].
  apply fmt_x_inj in Hs, Ho, Hv. subst. reflexivity.
Qed.

Lemma Fid_str_injective_witness :
  Fid_init 0x200000401 5 0 = {| seq := 8589935617; oid := 5; ver := 0 |}.
Proof.
  apply (Fid_str_injective (Fid_init 0x200000401 5 0)
           {| seq := 8589935617; oid := 5; ver := 0 |}).
  reflexivity.
Defined.

Example Fid_str_sample :
  Fid_str (Fid_init 0x200000401 5 0) = "[0x200000401:0x5:0x0]".
Proof. reflexivity. Qed.

Lemma dec_uint_no_newline (d : Decimal.uint) :
  count_char (ascii_of_nat 10) (NilEmpty.string_of_uint d) = 0%nat.
Proof.
  induction d; cbn [NilEmpty.string_of_uint count_char];
    try reflexivity; rewrite IHd; reflexivity.
Qed.

Lemma fmt_i_no_newline (z : Z) : count_char (ascii_of_nat 10) (fmt_i z) = 0%nat.
Proof.
  unfold fmt_i.
  assert (Hu : forall d, count_char (ascii_of_nat 10) (NilZero.string_of_uint d)
                         = 0%nat).
  { intros d. pose proof (dec_uint_no_newline d) as Hd.
    destruct d; exact Hd. }
  destruct (Z.to_int z) as [d|d]; cbn [NilZero.string_of_int count_char];
    rewrite Hu; reflexivity.
Qed.

Lemma stripeObj_str_line_newlines (ost : lov_user_ost_data_v1) :
  count_char (ascii_of_nat 10) (stripeObj_str_line ost) = 1%nat.
Proof.
  unfold stripeObj_str_line. rewrite !count_char_app, !fmt_i_no_newline.
  reflexivity.
Qed.

Lemma stripeObj_str_fold (objs : list lov_user_ost_data_v1) :
  forall acc,
    count_char (ascii_of_nat 10)
      (fold_left (fun string ost => (string ++ stripeObj_str_line ost)%string)
         objs acc)
    = (count_char (ascii_of_nat 10) acc + List.length objs)%nat
    /\ ((exists body, acc = (body ++ newline)%string) ->
        exists body,
          fold_left (fun string ost => (string ++ stripeObj_str_line ost)%string)
            objs acc
          = (body ++ newline)%string).
Proof.
  induction objs as [|ost rest IH]; intros acc; cbn [fold_left List.length].
  - split; [lia | auto].
  - destruct (IH (acc ++ stripeObj_str_line ost)%string) as [Hc Hend].
    split.
    + rewrite Hc, count_char_app, stripeObj_str_line_newlines. lia.
    + intros _. apply Hend. unfold stripeObj_str_line.
      eexists. rewrite <- !string_app_assoc. reflexivity.
Qed.

(** X17: the text form of a stripe object has one header line followed by
    one line per placement: it contains exactly
    [1 + len(ostobjects)] newline characters and ends with one. *)
Theorem stripeObj_str_lines (self : stripeObj) :
  count_char (ascii_of_nat 10) (stripeObj_str self)
  = S (List.length (ostobjects self))
  /\ exists body, stripeObj_str self = (body ++ newline)%string.
Proof.
  unfold stripeObj_str.
  set (header := ("Stripe Count: " ++ fmt_i (stripecount self)
                  ++ " Stripe Size: " ++ fmt_i (stripesize self)
                  ++ " Stripe Offset: " ++ fmt_i (stripeoffset self)
                  ++ newline)%string).
  destruct (stripeObj_str_fold (ostobjects self) header) as [Hc Hend].
  split.
  - rewrite Hc. unfold header.
    rewrite !count_char_app, !fmt_i_no_newline. reflexivity.
  - apply Hend. unfold header.
    exists ("Stripe Count: " ++ fmt_i (stripecount self)
            ++ " Stripe Size: " ++ fmt_i (stripesize self)
            ++ " Stripe Offset: " ++ fmt_i (stripeoffset self))%string.
    rewrite !string_app_assoc. reflexivity.
Qed.

Example stripeObj_str_sample :
  stripeObj_str {| lovdata := lov_user_md_v1_new; stripecount := 1;
                   stripesize := 1048576; stripeoffset := 7;
                   ostobjects := [sample_ost 7] |}
  = ("Stripe Count: 1 Stripe Size: 1048576 Stripe Offset: 7" ++ newline
     ++ "Objidx:" ++ tab ++ " 7 " ++ tab ++ "Objid:" ++ tab ++ " 107"
     ++ newline)%string.
Proof. reflexivity. Qed.
